(** * NetSourceAI: the tool-calling conversation loop

    A shallow embedding of [ai_management.py] (class [Ai_Management]), of
    [app.py] (class [GUI], one run of the script at a time) and of
    [tools_management.py] (class [Tools_Class], over its providers),
    followed by the properties of the conversation history that the
    specification states and by further properties of the loop, of the
    application and of the tools.

    Python values are modelled as follows.
    - [str] is [string]; a character is a code point below 256.
    - a [dict] with a fixed shape is a record or a constructor of an
      inductive type; the dict produced by [json.loads] is an association
      list in insertion order.
    - a [list] object that is shared between attributes lives in a store
      ([heap]) and attributes hold its location, so that aliasing is visible.
    - a method is a function from the world to an outcome (a value or a
      raised exception) and the world it leaves behind: what a method did
      before it raised stays done. *)

From Stdlib Require Import QArith NArith Ascii String DecimalString.
From stdpp Require Import base option list strings gmap.

Import Ascii.
Open Scope string_scope.
Open Scope list_scope.

(** ** Characters and text *)

Definition dquote : ascii := "034"%char.
Definition backslash : ascii := "092"%char.

Definition code (c : ascii) : N := N_of_ascii c.

Definition ch_eq (c d : ascii) : bool := Ascii.eqb c d.

Definition str1 (c : ascii) : string := String c EmptyString.

Fixpoint join (l : list string) : string :=
  match l with
  | [] => ""
  | x :: r => x +:+ join r
  end.

(** ** JSON values, as [json.loads] builds them *)

Unset Elimination Schemes.
Inductive JSON :=
| JNull
| JBool (b : bool)
| JNumber (token : string)
| JString (s : string)
| JArray (items : list JSON)
| JObject (members : list (string * JSON)).
Set Elimination Schemes.

(** [d[k] = v] on a dict: a key already present keeps its position. *)
Fixpoint dict_set (k : string) (v : JSON) (d : list (string * JSON))
  : list (string * JSON) :=
  match d with
  | [] => [(k, v)]
  | (k', v') :: r =>
      if String.eqb k k' then (k, v) :: r else (k', v') :: dict_set k v r
  end.

Fixpoint dict_get (k : string) (d : list (string * JSON)) : option JSON :=
  match d with
  | [] => None
  | (k', v) :: r => if String.eqb k k' then Some v else dict_get k r
  end.

(** ** Exceptions and outcomes *)

Inductive Exn :=
| JSONDecodeError
| KeyError (key : string)
| TypeError
| APIError (detail : string)
| RerunException.

Inductive Outcome (A : Type) :=
| Returned (a : A)
| Raised (e : Exn).
Arguments Returned {A} a.
Arguments Raised {A} e.

(** [args[key]]: only a dict that has the key answers. *)
Definition subscript (args : JSON) (key : string) : Outcome JSON :=
  match args with
  | JObject d =>
      match dict_get key d with
      | Some v => Returned v
      | None => Raised (KeyError key)
      end
  | _ => Raised TypeError
  end.

(** ** [json.dumps] on a dict of strings

    The default encoder: members in insertion order, separated by a comma
    and a space, key and value by a colon and a space; in a string every
    character outside the printable ASCII range, the quote and the backslash
    are escaped. *)

Definition hex_digit (n : N) : ascii :=
  if (n <? 10)%N then ascii_of_N (48 + n) else ascii_of_N (87 + n).

Definition escape_char (c : ascii) : string :=
  if ch_eq c dquote then String backslash (str1 dquote)
  else if ch_eq c backslash then String backslash (str1 backslash)
  else if ch_eq c "010"%char then String backslash "n"
  else if ch_eq c "013"%char then String backslash "r"
  else if ch_eq c "009"%char then String backslash "t"
  else if ch_eq c "008"%char then String backslash "b"
  else if ch_eq c "012"%char then String backslash "f"
  else if ((32 <=? code c) && (code c <=? 126))%N then str1 c
  else String backslash
         ("u00" +:+ String (hex_digit (code c / 16))
                      (str1 (hex_digit (code c mod 16)))).

Fixpoint escape (s : string) : string :=
  match s with
  | EmptyString => ""
  | String c r => escape_char c +:+ escape r
  end.

Definition dumps_str (s : string) : string :=
  str1 dquote +:+ escape s +:+ str1 dquote.

Fixpoint dumps_members (d : list (string * string)) : string :=
  match d with
  | [] => ""
  | [(k, v)] => dumps_str k +:+ ": " +:+ dumps_str v
  | (k, v) :: r => dumps_str k +:+ ": " +:+ dumps_str v +:+ ", " +:+ dumps_members r
  end.

Definition json_dumps (d : list (string * string)) : string :=
  "{" +:+ dumps_members d +:+ "}".

(** ** A decoder for [json.loads]

    [json.loads] belongs to the Python library; the loop below takes it from
    its environment. This decoder follows the library's scanner on texts
    whose characters and [\u] escapes stay below 256, and keeps a number as
    its token. It serves the closed examples. *)

Definition is_ws (c : ascii) : bool :=
  ch_eq c " " || ch_eq c "009" || ch_eq c "010" || ch_eq c "013".

Definition is_digit (c : ascii) : bool :=
  ((48 <=? code c) && (code c <=? 57))%N.

Fixpoint skip_ws (s : list ascii) : list ascii :=
  match s with
  | c :: r => if is_ws c then skip_ws r else s
  | [] => []
  end.

Fixpoint digits (s : list ascii) : list ascii * list ascii :=
  match s with
  | c :: r => if is_digit c then let (d, r') := digits r in (c :: d, r') else ([], s)
  | [] => ([], [])
  end.

Definition hex_value (c : ascii) : option N :=
  let n := code c in
  if ((48 <=? n) && (n <=? 57))%N then Some (n - 48)%N
  else if ((97 <=? n) && (n <=? 102))%N then Some (n - 87)%N
  else if ((65 <=? n) && (n <=? 70))%N then Some (n - 55)%N
  else None.

Definition hex4 (a b c d : ascii) : option N :=
  a' ← hex_value a; b' ← hex_value b; c' ← hex_value c; d' ← hex_value d;
  Some (((a' * 16 + b') * 16 + c') * 16 + d')%N.

Definition unescape (c : ascii) : option ascii :=
  if ch_eq c dquote then Some dquote
  else if ch_eq c backslash then Some backslash
  else if ch_eq c "/" then Some "/"%char
  else if ch_eq c "b" then Some "008"%char
  else if ch_eq c "f" then Some "012"%char
  else if ch_eq c "n" then Some "010"%char
  else if ch_eq c "r" then Some "013"%char
  else if ch_eq c "t" then Some "009"%char
  else None.

(** The body of a string, after its opening quote. *)
Fixpoint scan_string (s : list ascii) : option (string * list ascii) :=
  match s with
  | [] => None
  | c :: r =>
      if ch_eq c dquote then Some ("", r)
      else if ch_eq c backslash then
        match r with
        | [] => None
        | e :: r1 =>
            if ch_eq e "u" then
              match r1 with
              | h1 :: h2 :: h3 :: h4 :: r2 =>
                  n ← hex4 h1 h2 h3 h4;
                  if (n <? 256)%N
                  then prod_map (String (ascii_of_N n)) id <$> scan_string r2
                  else None
              | _ => None
              end
            else
              x ← unescape e;
              prod_map (String x) id <$> scan_string r1
        end
      else if (code c <? 32)%N then None
      else prod_map (String c) id <$> scan_string r
  end.

Definition text (l : list ascii) : string := string_of_list_ascii l.

(** A number token: sign, integer part, then a fraction and an exponent
    where they are complete. *)
Definition scan_number (s : list ascii) : option (string * list ascii) :=
  let (sign, s1) :=
    match s with
    | c :: r => if ch_eq c "-" then ([c], r) else ([], s)
    | [] => ([], s)
    end in
  match s1 with
  | [] => None
  | c :: r =>
      if is_digit c then
        let (int, r1) := if ch_eq c "0" then ([c], r)
                         else let (d, r') := digits r in (c :: d, r') in
        let (frac, r2) :=
          match r1 with
          | p :: q =>
              if ch_eq p "." then
                match digits q with
                | ([], _) => ([], r1)
                | (d, q') => (p :: d, q')
                end
              else ([], r1)
          | [] => ([], r1)
          end in
        let (exp, r3) :=
          match r2 with
          | e :: q =>
              if ch_eq e "e" || ch_eq e "E" then
                let (sg, q1) :=
                  match q with
                  | g :: q' => if ch_eq g "-" || ch_eq g "+" then ([g], q') else ([], q)
                  | [] => ([], q)
                  end in
                match digits q1 with
                | ([], _) => ([], r2)
                | (d, q2) => (e :: sg ++ d, q2)
                end
              else ([], r2)
          | [] => ([], r2)
          end in
        Some (text (sign ++ int ++ frac ++ exp), r3)
      else None
  end.

(** [word w s]: [s] starts with the characters of [w]. *)
Fixpoint word (w s : list ascii) : option (list ascii) :=
  match w, s with
  | [], _ => Some s
  | a :: w', b :: s' => if ch_eq a b then word w' s' else None
  | _ :: _, [] => None
  end.

Definition chars (s : string) : list ascii := list_ascii_of_string s.

Definition scan_literal (s : list ascii) : option (JSON * list ascii) :=
  match word (chars "null") s with Some r => Some (JNull, r) | None =>
  match word (chars "true") s with Some r => Some (JBool true, r) | None =>
  match word (chars "false") s with Some r => Some (JBool false, r) | None =>
  match word (chars "NaN") s with Some r => Some (JNumber "NaN", r) | None =>
  match word (chars "Infinity") s with Some r => Some (JNumber "Infinity", r) | None =>
  match word (chars "-Infinity") s with Some r => Some (JNumber "-Infinity", r) | None =>
  prod_map JNumber id <$> scan_number s
  end end end end end end.

(** Values, array items and object members. Every call spends one unit of
    [n]; the decoder starts with twice the length of the text and two
    more. [scan_items] starts at an item, [scan_pairs] after the opening
    quote of a key. *)
Fixpoint scan_value (n : nat) (s : list ascii) : option (JSON * list ascii) :=
  match n with
  | O => None
  | S n =>
      match s with
      | [] => None
      | c :: r =>
          if ch_eq c dquote then prod_map JString id <$> scan_string r
          else if ch_eq c "{" then
            match skip_ws r with
            | d :: r1 =>
                if ch_eq d "}" then Some (JObject [], r1)
                else if ch_eq d dquote then scan_pairs n r1 []
                else None
            | [] => None
            end
          else if ch_eq c "[" then
            match skip_ws r with
            | d :: r1 =>
                if ch_eq d "]" then Some (JArray [], r1)
                else scan_items n (d :: r1) []
            | [] => None
            end
          else scan_literal s
      end
  end
with scan_items (n : nat) (s : list ascii) (acc : list JSON)
  : option (JSON * list ascii) :=
  match n with
  | O => None
  | S n =>
      '(v, r) ← scan_value n s;
      match skip_ws r with
      | d :: r1 =>
          if ch_eq d "]" then Some (JArray (acc ++ [v]), r1)
          else if ch_eq d "," then scan_items n (skip_ws r1) (acc ++ [v])
          else None
      | [] => None
      end
  end
with scan_pairs (n : nat) (s : list ascii) (acc : list (string * JSON))
  : option (JSON * list ascii) :=
  match n with
  | O => None
  | S n =>
      '(k, r) ← scan_string s;
      match skip_ws r with
      | d :: r1 =>
          if ch_eq d ":" then
            '(v, r2) ← scan_value n (skip_ws r1);
            match skip_ws r2 with
            | e :: r3 =>
                if ch_eq e "}" then Some (JObject (dict_set k v acc), r3)
                else if ch_eq e "," then
                  match skip_ws r3 with
                  | q :: r4 =>
                      if ch_eq q dquote then scan_pairs n r4 (dict_set k v acc)
                      else None
                  | [] => None
                  end
                else None
            | [] => None
            end
          else None
      | [] => None
      end
  end.

Definition json_loads (s : string) : Outcome JSON :=
  let cs := chars s in
  match scan_value (2 * length cs + 2) (skip_ws cs) with
  | Some (v, r) =>
      match skip_ws r with
      | [] => Returned v
      | _ :: _ => Raised JSONDecodeError
      end
  | None => Raised JSONDecodeError
  end.

(** ** Messages and the model endpoint

    The fields of a tool call are [id], [type] and [function] in the source
    and [function] has [name] and [arguments]; they carry a prefix here. *)

Record Function := { fn_name : string; fn_arguments : string }.

Record ToolCall :=
  { call_id : string; call_type : string; call_function : Function }.

(** The dict with keys [id], [type] and [function] stored in the history. *)
Record ToolCallDict :=
  { d_id : string; d_type : string; d_function : Function }.

Inductive Role := system | user | assistant | tool.

(** The five shapes of message dict the program builds. *)
Inductive Message :=
| System (content : string)
| User (content : string)
| Assistant (content : option string)
| AssistantToolCalls (tool_calls : list ToolCallDict)
| Tool (content : string) (tool_call_id : string).

Definition role (m : Message) : Role :=
  match m with
  | System _ => system
  | User _ => user
  | Assistant _ | AssistantToolCalls _ => assistant
  | Tool _ _ => tool
  end.

Definition tool_call_id_of (m : Message) : option string :=
  match m with
  | Tool _ i => Some i
  | _ => None
  end.

(** The keyword arguments of [client.chat.completions.create]; an argument
    that is not passed is [None], [stream] then is [false]. *)
Record Request :=
  { req_model : string;
    req_messages : list Message;
    req_tools : option JSON;
    req_temperature : option Q;
    req_stream : bool }.

(** [response.choices[0].message] of a completion that is not streamed. *)
Record ChatCompletionMessage :=
  { msg_content : option string;
    msg_tool_calls : option (list ToolCall) }.

(** What iterating a streamed completion yields: a chunk with its
    [choices[0].delta.content], or the exception that ends the iteration. *)
Inductive StreamItem :=
| Chunk (delta_content : option string)
| Broken (e : Exn).

Record Client :=
  { create : Request -> Outcome ChatCompletionMessage;
    create_stream : Request -> Outcome (list StreamItem) }.

(** ** Configuration, tools and environment *)

Record Config :=
  { model_name : string;
    default_temperature : Q;
    config_system_prompt : string }.

(** [Tools_Class]. Each of its methods catches what its provider raises and
    returns text on every path, so a method is a function to [string]; the
    providers and the clock are outside the program. The argument is the
    JSON value found in the call's arguments. *)
Record Tools_Class :=
  { fetch_wikipedia_information : JSON -> string;
    fetch_internet_information : JSON -> string;
    now : string;
    ai_tools : JSON }.

Definition get_current_date_and_time (t : Tools_Class) : string :=
  "The current date and time is: " +:+ now t.

Record Env :=
  { config : Config;
    client : Client;
    tools : Tools_Class;
    loads : string -> Outcome JSON }.

(** ** The world: the list store, the [Ai_Management] object, the session *)

Definition loc := nat.

Record Ai_Management :=
  { model : string;
    temperature : Q;
    system_prompt : loc;
    history : loc }.

(** What the program did that its result does not show: the requests it
    sent, and each call of a tool method with the history at that moment. *)
Inductive Event :=
| Requested (r : Request)
| Invoked (tool_name : string) (seen : list Message).

Record World :=
  { heap : gmap loc (list Message);
    ai_chat : Ai_Management;
    messages : list Message;
    trace : list Event }.

Definition set_heap (h : gmap loc (list Message)) (w : World) : World :=
  {| heap := h; ai_chat := ai_chat w; messages := messages w; trace := trace w |}.

Definition set_ai_chat (a : Ai_Management) (w : World) : World :=
  {| heap := heap w; ai_chat := a; messages := messages w; trace := trace w |}.

Definition set_messages (l : list Message) (w : World) : World :=
  {| heap := heap w; ai_chat := ai_chat w; messages := l; trace := trace w |}.

Definition log (e : Event) (w : World) : World :=
  {| heap := heap w; ai_chat := ai_chat w; messages := messages w;
     trace := trace w ++ [e] |}.

(** The list object at a location. *)
Definition deref (l : loc) (w : World) : list Message := heap w !!! l.

(** [self.history], read as a list. *)
Definition history_of (w : World) : list Message :=
  deref (history (ai_chat w)) w.

(** [self.system_prompt], read as a list. *)
Definition system_prompt_of (w : World) : list Message :=
  deref (system_prompt (ai_chat w)) w.

(** ** Computations *)

Definition Py (A : Type) : Type := World -> Outcome A * World.

Definition ret {A} (a : A) : Py A := fun w => (Returned a, w).

Definition bind {A B} (m : Py A) (k : A -> Py B) : Py B :=
  fun w =>
    match m w with
    | (Returned a, w') => k a w'
    | (Raised e, w') => (Raised e, w')
    end.

Definition lift {A} (o : Outcome A) : Py A := fun w => (o, w).

Notation "x <- m ;; k" := (bind m (fun x => k))
  (at level 100, m at next level, right associativity).
Notation "m ;; k" := (bind m (fun _ => k))
  (at level 100, right associativity).

(** [l.append(m)] on the list object at [l]. *)
Definition list_append (l : loc) (m : Message) : Py unit :=
  fun w => (Returned tt, set_heap (<[l := deref l w ++ [m]]> (heap w)) w).

(** [self.history.append(m)]. *)
Definition history_append (m : Message) : Py unit :=
  fun w => list_append (history (ai_chat w)) m w.

Definition read_history : Py (list Message) :=
  fun w => (Returned (history_of w), w).

Definition self : Py Ai_Management := fun w => (Returned (ai_chat w), w).

Definition send (env : Env) (r : Request) : Py ChatCompletionMessage :=
  fun w => (create (client env) r, log (Requested r) w).

Definition send_stream (env : Env) (r : Request) : Py (list StreamItem) :=
  fun w => (create_stream (client env) r, log (Requested r) w).

(** A call of a method of [self.tools] that returns [text]. *)
Definition invoke (tool_name : string) (text : string) : Py string :=
  fun w => (Returned text, log (Invoked tool_name (history_of w)) w).

(** ** [Ai_Management] *)

(** The world before the constructor has run. *)
Definition blank : World :=
  {| heap := ∅;
     ai_chat := {| model := ""; temperature := 0; system_prompt := 0%nat;
                   history := 0%nat |};
     messages := [];
     trace := [] |}.

Definition _load_configuration (env : Env) : Py unit :=
  fun w =>
    (Returned tt,
     set_ai_chat {| model := model_name (config env);
                    temperature := default_temperature (config env);
                    system_prompt := system_prompt (ai_chat w);
                    history := history (ai_chat w) |} w).

(** The client is built from the configuration; it is the [client] of the
    environment. *)
Definition _setup_client (env : Env) : Py unit := ret tt.

(** One list is created; [system_prompt] and [history] both name it. *)
Definition _initialize_conversation (env : Env) : Py unit :=
  fun w =>
    let l := fresh (dom (heap w)) in
    let w1 := set_heap (<[l := [System (config_system_prompt (config env))]]> (heap w)) w in
    let w2 := set_ai_chat {| model := model (ai_chat w1);
                             temperature := temperature (ai_chat w1);
                             system_prompt := l;
                             history := history (ai_chat w1) |} w1 in
    (Returned tt,
     set_ai_chat {| model := model (ai_chat w2);
                    temperature := temperature (ai_chat w2);
                    system_prompt := system_prompt (ai_chat w2);
                    history := system_prompt (ai_chat w2) |} w2).

(** The tools and their schema are the [tools] of the environment. *)
Definition _setup_tools (env : Env) : Py unit := ret tt.

Definition __init__ (env : Env) : Py unit :=
  _load_configuration env ;;
  _setup_client env ;;
  _initialize_conversation env ;;
  _setup_tools env.

(** Truth value of [message.tool_calls]: [None] and the empty list are
    false. *)
Definition requested (o : option (list ToolCall)) : list ToolCall :=
  match o with
  | Some l => l
  | None => []
  end.

(** Truth value of a chunk's [delta.content]: [None] and the empty string
    are false. *)
Definition fragment (o : option string) : string :=
  match o with
  | Some s => s
  | None => ""
  end.

Definition _add_tool_calls_to_history (tool_calls : list ToolCall) : Py unit :=
  let tool_call_from_ai :=
    AssistantToolCalls
      (map (fun tool_call =>
              {| d_id := call_id tool_call;
                 d_type := call_type tool_call;
                 d_function := call_function tool_call |})
           tool_calls) in
  history_append tool_call_from_ai.

Definition sentinel : string := "Error: not all variables have been provided.".

(** The arguments of a tool call: [json.loads], and the empty dict when it
    raises. *)
Definition parse_arguments (env : Env) (tool_call : ToolCall) : JSON :=
  match loads env (fn_arguments (call_function tool_call)) with
  | Returned args => args
  | Raised _ => JObject []
  end.

(** The chain of conditionals on the tool's name. *)
Definition execute (env : Env) (name_function : string) (args : JSON) : Py string :=
  if String.eqb name_function "fetch_wikipedia_information" then
    a <- lift (subscript args "wikipedia_query") ;;
    invoke name_function (fetch_wikipedia_information (tools env) a)
  else if String.eqb name_function "fetch_internet_information" then
    a <- lift (subscript args "query") ;;
    invoke name_function (fetch_internet_information (tools env) a)
  else if String.eqb name_function "get_current_date_and_time" then
    invoke name_function (get_current_date_and_time (tools env))
  else
    ret sentinel.

Definition tool_message (result : string) (tool_call : ToolCall) : Message :=
  Tool (json_dumps [("status", "success"); ("message", result)])
       (call_id tool_call).

Fixpoint _process_tool_calls (env : Env) (tool_calls : list ToolCall) : Py unit :=
  match tool_calls with
  | [] => ret tt
  | tool_call :: rest =>
      let name_function := fn_name (call_function tool_call) in
      let args := parse_arguments env tool_call in
      result <- execute env name_function args ;;
      history_append (tool_message result tool_call) ;;
      _process_tool_calls env rest
  end.

(** The loop over the chunks of the stream. *)
Fixpoint consume (stream_response : list StreamItem) (ai_output : string)
  : Outcome string :=
  match stream_response with
  | [] => Returned ai_output
  | Chunk (Some content) :: rest =>
      if String.eqb content "" then consume rest ai_output
      else consume rest (ai_output +:+ content)
  | Chunk None :: rest => consume rest ai_output
  | Broken e :: _ => Raised e
  end.

Definition second_request (a : Ai_Management) (h : list Message) : Request :=
  {| req_model := model a;
     req_messages := h;
     req_tools := None;
     req_temperature := None;
     req_stream := true |}.

Definition _generate_final_response (env : Env) : Py string :=
  a <- self ;;
  h <- read_history ;;
  stream_response <- send_stream env (second_request a h) ;;
  ai_output <- lift (consume stream_response "") ;;
  history_append (Assistant (Some ai_output)) ;;
  ret ai_output.

Definition first_request (env : Env) (a : Ai_Management) (h : list Message)
  : Request :=
  {| req_model := model a;
     req_messages := h;
     req_tools := Some (ai_tools (tools env));
     req_temperature := Some (temperature a);
     req_stream := false |}.

(** The result is a [str], or [None] when the model's message has no
    content. *)
Definition generation_loop (env : Env) (message : string) : Py (option string) :=
  history_append (User message) ;;
  a <- self ;;
  h <- read_history ;;
  response <- send env (first_request env a h) ;;
  match requested (msg_tool_calls response) with
  | (_ :: _) as tool_calls =>
      _add_tool_calls_to_history tool_calls ;;
      _process_tool_calls env tool_calls ;;
      final <- _generate_final_response env ;;
      ret (Some final)
  | [] =>
      let content := msg_content response in
      history_append (Assistant content) ;;
      ret content
  end.

(** ** [GUI._clear_chat_history]

    [st.rerun()] ends the script run by raising. *)
Definition _clear_chat_history : Py unit :=
  fun w =>
    let w1 := set_messages [] w in
    let w2 := set_ai_chat {| model := model (ai_chat w1);
                             temperature := temperature (ai_chat w1);
                             system_prompt := system_prompt (ai_chat w1);
                             history := system_prompt (ai_chat w1) |} w1 in
    (Raised RerunException, w2).

(** [self.ai_chat.temperature = t], the assignment in
    [GUI._render_interface]. *)
Definition set_temperature (t : Q) : Py unit :=
  fun w =>
    (Returned tt,
     set_ai_chat {| model := model (ai_chat w);
                    temperature := t;
                    system_prompt := system_prompt (ai_chat w);
                    history := history (ai_chat w) |} w).

(** The world after a computation. *)
Definition after {A} (m : Py A) (w : World) : World := snd (m w).

(** The worlds an [Ai_Management] object goes through: construction, then
    turns, resets and changes of temperature in any order. *)
Inductive reachable (env : Env) : World -> Prop :=
| reach_init : reachable env (after (__init__ env) blank)
| reach_turn w message :
    reachable env w -> reachable env (after (generation_loop env message) w)
| reach_clear w :
    reachable env w -> reachable env (after _clear_chat_history w)
| reach_temperature w t :
    reachable env w -> reachable env (after (set_temperature t) w).

(** ** A concrete environment for the examples *)

Definition scripted (first : Outcome ChatCompletionMessage)
    (second : Outcome (list StreamItem)) : Client :=
  {| create := fun _ => first; create_stream := fun _ => second |}.

Definition demo_config : Config :=
  {| model_name := "demo-model";
     default_temperature := 7 # 10;
     config_system_prompt := "You are a helpful assistant." |}.

Definition demo_tools : Tools_Class :=
  {| fetch_wikipedia_information := fun _ => "No Wikipedia results found.";
     fetch_internet_information := fun _ => "Search error: offline";
     now := "2025-01-01 12:00:00";
     ai_tools := JArray [] |}.

Definition demo (c : Client) : Env :=
  {| config := demo_config; client := c; tools := demo_tools;
     loads := json_loads |}.

Definition call (i name arguments : string) : ToolCall :=
  {| call_id := i; call_type := "function";
     call_function := {| fn_name := name; fn_arguments := arguments |} |}.

Definition asks (tool_calls : list ToolCall) : Outcome ChatCompletionMessage :=
  Returned {| msg_content := None; msg_tool_calls := Some tool_calls |}.

Definition silent : Outcome (list StreamItem) := Returned [].

Definition start (env : Env) : World := after (__init__ env) blank.

Definition quoted (s : string) : string := str1 dquote +:+ s +:+ str1 dquote.

(** The model asks for the time, for a tool that does not exist and for an
    encyclopedia lookup, and then streams its answer. *)
Definition mixed_calls : list ToolCall :=
  [call "call_1" "get_current_date_and_time" "{}";
   call "call_2" "translate_text" "{not json";
   call "call_3" "fetch_wikipedia_information"
     ("{" +:+ quoted "wikipedia_query" +:+ ": " +:+ quoted "Ada Lovelace" +:+ "}")].

Definition mixed_stream : list StreamItem :=
  [Chunk None; Chunk (Some "Ada Lovelace "); Chunk (Some "");
   Chunk (Some "wrote programs.")].

Definition mixed_env : Env :=
  demo (scripted (asks mixed_calls) (Returned mixed_stream)).

(** The model greets back. *)
Definition hello_response : ChatCompletionMessage :=
  {| msg_content := Some "Hi there!"; msg_tool_calls := None |}.

Definition hello_env : Env := demo (scripted (Returned hello_response) silent).

(** The model asks for the time and then streams its answer. *)
Definition time_calls : list ToolCall :=
  [call "call_1" "get_current_date_and_time" "{}"].

Definition time_stream : list StreamItem :=
  [Chunk (Some "It is "); Chunk None; Chunk (Some ""); Chunk (Some "noon.")].

Definition time_env : Env :=
  demo (scripted (asks time_calls) (Returned time_stream)).

(** The model asks for an encyclopedia lookup without naming the query,
    then for the time. *)
Definition lookup_calls : list ToolCall :=
  [call "call_1" "fetch_wikipedia_information" "{}";
   call "call_2" "get_current_date_and_time" "{}"].

Definition lookup_env : Env := demo (scripted (asks lookup_calls) silent).

(** The model sends arguments that are not JSON. *)
Definition garbled_calls : list ToolCall :=
  [call "call_1" "fetch_internet_information" "{not json"].

Definition garbled_env : Env := demo (scripted (asks garbled_calls) silent).

(** The model asks for a tool the program does not have. *)
Definition stray_calls : list ToolCall :=
  [call "call_1" "translate_text" "{}"].

Definition stray_env : Env :=
  demo (scripted (asks stray_calls) (Returned [Chunk (Some "Sorry.")])).

(** The stream of the second call breaks after its first chunk. *)
Definition cut_env : Env :=
  demo (scripted (asks time_calls)
          (Returned [Chunk (Some "It is "); Broken (APIError "connection reset")])).

(** The endpoint is down. *)
Definition refused : Exn := APIError "connection refused".

Definition down_env : Env := demo (scripted (Raised refused) silent).

(** ** What the loop computes, read off its parts *)

(** The text a tool call ends with, or the exception it raises. *)
Definition result_text (env : Env) (name_function : string) (args : JSON)
  : Outcome string :=
  if String.eqb name_function "fetch_wikipedia_information" then
    match subscript args "wikipedia_query" with
    | Returned a => Returned (fetch_wikipedia_information (tools env) a)
    | Raised e => Raised e
    end
  else if String.eqb name_function "fetch_internet_information" then
    match subscript args "query" with
    | Returned a => Returned (fetch_internet_information (tools env) a)
    | Raised e => Raised e
    end
  else if String.eqb name_function "get_current_date_and_time" then
    Returned (get_current_date_and_time (tools env))
  else
    Returned sentinel.

Definition call_result (env : Env) (tool_call : ToolCall) : Outcome string :=
  result_text env (fn_name (call_function tool_call))
              (parse_arguments env tool_call).

(** The tool messages a batch appends, and the exception that stops it. *)
Fixpoint batch (env : Env) (tool_calls : list ToolCall)
  : list Message * option Exn :=
  match tool_calls with
  | [] => ([], None)
  | tool_call :: rest =>
      match call_result env tool_call with
      | Returned result =>
          let (ms, e) := batch env rest in (tool_message result tool_call :: ms, e)
      | Raised e => ([], Some e)
      end
  end.

Definition finish (o : option Exn) : Outcome unit :=
  match o with
  | None => Returned tt
  | Some e => Raised e
  end.

(** An event of the trace that is a tool call made when the history
    already started with [h]. *)
Definition seen_from (h : list Message) (ev : Event) : Prop :=
  match ev with
  | Invoked _ seen => h `prefix_of` seen
  | Requested _ => False
  end.

Definition known_tool (name_function : string) : bool :=
  String.eqb name_function "fetch_wikipedia_information"
  || String.eqb name_function "fetch_internet_information"
  || String.eqb name_function "get_current_date_and_time".

(** The fragments of a stream, in order of arrival. *)
Fixpoint fragments (stream_response : list StreamItem) : list string :=
  match stream_response with
  | [] => []
  | Chunk o :: rest => fragment o :: fragments rest
  | Broken _ :: _ => []
  end.

(** The [status] and [message] members of a tool message's content, as
    the decoder reads them back. *)
Definition member (key : string) (m : Message) : option JSON :=
  match m with
  | Tool c _ =>
      match json_loads c with
      | Returned (JObject d) => dict_get key d
      | _ => None
      end
  | _ => None
  end.

(** The message [_add_tool_calls_to_history] builds. *)
Definition calls_message (tool_calls : list ToolCall) : Message :=
  AssistantToolCalls
    (map (fun tool_call =>
            {| d_id := call_id tool_call;
               d_type := call_type tool_call;
               d_function := call_function tool_call |})
         tool_calls).

(** The text of the streamed answer to a request, or what stops it. *)
Definition stream_outcome (env : Env) (r : Request) : Outcome string :=
  match create_stream (client env) r with
  | Returned stream_response => consume stream_response ""
  | Raised e => Raised e
  end.

Definition final_message (o : Outcome string) : list Message :=
  match o with
  | Returned ai_output => [Assistant (Some ai_output)]
  | Raised _ => []
  end.

(** The argument a tool reads from the call's arguments. *)
Definition required_argument (name_function : string) : option string :=
  if String.eqb name_function "fetch_wikipedia_information" then
    Some "wikipedia_query"
  else if String.eqb name_function "fetch_internet_information" then
    Some "query"
  else None.

(** The request of the first model call of a turn. *)
Definition opening_request (env : Env) (message : string) (w : World) : Request :=
  first_request env (ai_chat w) (history_of w ++ [User message]).

(** The request of the second model call, after the batch [tool_calls]. *)
Definition closing_request (env : Env) (message : string) (w : World)
    (tool_calls : list ToolCall) : Request :=
  second_request (ai_chat w)
    (((history_of w ++ [User message]) ++ [calls_message tool_calls])
       ++ fst (batch env tool_calls)).

(** The first model call of the turn raises [e]. *)
Definition first_call_fails (env : Env) (message : string) (w : World)
    (e : Exn) : Prop :=
  create (client env) (opening_request env message w) = Raised e.

(** The model asks for tools, the batch runs to its end, and the second
    model call, or the iteration over its stream, raises [e]. *)
Definition second_call_fails (env : Env) (message : string) (w : World)
    (e : Exn) : Prop :=
  exists response,
    create (client env) (opening_request env message w) = Returned response /\
    requested (msg_tool_calls response) <> [] /\
    snd (batch env (requested (msg_tool_calls response))) = None /\
    stream_outcome env
      (closing_request env message w (requested (msg_tool_calls response)))
    = Raised e.

Definition is_chunk (i : StreamItem) : Prop :=
  match i with
  | Chunk _ => True
  | Broken _ => False
  end.

(** [grows w w' added sent]: from [w] to [w'] the object kept its
    attributes, the session log is the same, [added] was appended to the
    history and [sent] to the trace. *)
Definition grows (w w' : World) (added : list Message) (sent : list Event) : Prop :=
  ai_chat w' = ai_chat w /\
  messages w' = messages w /\
  history_of w' = history_of w ++ added /\
  trace w' = trace w ++ sent.

(** The model asks for the time, for a lookup without its query, and for
    the time again. *)
Definition halfway_calls : list ToolCall :=
  [call "call_1" "get_current_date_and_time" "{}";
   call "call_2" "fetch_wikipedia_information" "{}";
   call "call_3" "get_current_date_and_time" "{}"].

Definition halfway_env : Env := demo (scripted (asks halfway_calls) silent).

(** The model sends arguments that are JSON but not an object. *)
Definition array_calls : list ToolCall :=
  [call "call_1" "fetch_wikipedia_information"
     ("[" +:+ quoted "Ada Lovelace" +:+ "]")].

Definition array_env : Env := demo (scripted (asks array_calls) silent).

(** Two ways to cut one answer into chunks. *)
Definition coarse_stream : list StreamItem :=
  [Chunk (Some "Ada Lovelace wrote programs.")].

(** ** [GUI._process_chat_response] and the session log *)

(** [st.session_state.messages.append(m)]. *)
Definition session_append (m : Message) : Py unit :=
  fun w => (Returned tt, set_messages (messages w ++ [m]) w).

(** [st.rerun()]. *)
Definition st_rerun : Py unit := fun w => (Raised RerunException, w).

Definition _process_chat_response (env : Env) (user_input : string) : Py unit :=
  session_append (User user_input) ;;
  response <- generation_loop env user_input ;;
  session_append (Assistant response) ;;
  st_rerun.

(** ** [GUI]: one run of the script

    Streamlit runs the script from its first line at every interaction, and
    the script's last line is [GUI()]: every run builds a [GUI], and with it
    an [Ai_Management]. What lasts from one run to the next is
    [st.session_state]; a world's [messages] is its [messages] entry, which
    the first run's [_initialize_session_state] makes the empty list, as in
    [blank]. What the widgets return during a run is the run's input. The
    voice switch only sets [speech_enabled], which no code reads. *)
Record Interaction :=
  { slider : Q;
    button : bool;
    chat_input : option string }.

(** [messages] is in the session from the first run on. *)
Definition _initialize_session_state : Py unit := ret tt.

Definition _initialize_app (env : Env) : Py unit :=
  _initialize_session_state ;;
  __init__ env.

Definition _render_sidebar (i : Interaction) : Py Q :=
  (if button i then _clear_chat_history else ret tt) ;;
  ret (slider i).

(** Truth value of [user_input]: [None] and the empty string are false. *)
Definition _handle_user_input (env : Env) (i : Interaction) : Py unit :=
  match chat_input i with
  | Some user_input =>
      if String.eqb user_input "" then ret tt
      else _process_chat_response env user_input
  | None => ret tt
  end.

(** [_render_chat_messages] writes the session log to the page. *)
Definition _render_main_container (env : Env) (i : Interaction) : Py unit :=
  _handle_user_input env i.

Definition _render_interface (env : Env) (i : Interaction) : Py unit :=
  t <- _render_sidebar i ;;
  set_temperature t ;;
  _render_main_container env i.

Definition GUI (env : Env) (i : Interaction) : Py unit :=
  _initialize_app env ;;
  _render_interface env i.

(** The worlds of a browser session: run after run, each with its input. *)
Inductive session (env : Env) : World -> Prop :=
| session_start : session env blank
| session_run w i : session env w -> session env (after (GUI env i) w).

(** A session log in which every entry is a user's or an assistant's, and
    every assistant's entry comes directly after a user's. *)
Fixpoint paired (l : list Message) : bool :=
  match l with
  | [] => true
  | User _ :: r =>
      match r with
      | Assistant _ :: r' => paired r'
      | _ => paired r
      end
  | _ => false
  end.

(** The messages of a history that the chat window shows: what the user
    wrote and what the assistant answered in words. *)
Definition shown (m : Message) : bool :=
  match m with
  | User _ | Assistant _ => true
  | System _ | AssistantToolCalls _ | Tool _ _ => false
  end.

Definition visible (h : list Message) : list Message := filter shown h.

(** The user sends [user_input], with the slider at 0.7. *)
Definition says (user_input : string) : Interaction :=
  {| slider := 7 # 10; button := false; chat_input := Some user_input |}.

(** The user presses the button that clears the history. *)
Definition presses_clear : Interaction :=
  {| slider := 7 # 10; button := true; chat_input := None |}.

(** ** [Tools_Class]: the three tools

    The search engine, the web, Wikipedia and the clock are outside the
    program: a provider returns a value or raises, and the methods read of
    an exception only its text, [str(e)]. Characters are code points below
    256, as in the rest of this file. *)
Module Tools.

Inductive Fetched (A : Type) :=
| Got (a : A)
| Failed (text : string).
Arguments Got {A} a.
Arguments Failed {A} text.

(** One result of [DDGS().text]: a dict that may lack a key. *)
Record Result :=
  { res_title : option string;
    res_href : option string }.

(** A [wikipedia.page]. *)
Record Page :=
  { title : string;
    url : string;
    summary : string }.

Record Providers :=
  { (* [DDGS().text(query, safesearch=..., max_results=...)] *)
    ddgs_text : JSON -> Fetched (list Result);
    (* [requests.get(url, timeout=10)], [raise_for_status], and the text of
       each [<p>] of the page *)
    paragraphs : string -> Fetched (list string);
    (* [wikipedia.set_lang] and [wikipedia.search] *)
    wikipedia_search : JSON -> Fetched (list string);
    (* [wikipedia.page] and its three attributes *)
    wikipedia_page : string -> Fetched Page;
    (* [datetime.now().strftime('%Y-%m-%d %H:%M:%S')] *)
    clock : string;
    (* [config["search"]["num_sentences"]] *)
    num_sentences : Z;
    (* [tools_definition.json] *)
    tools_definition : JSON;
    (* [str] of an argument that is not a string *)
    str_of : JSON -> string }.

Definition nl : string := str1 "010"%char.

(** How an f-string shows an argument. *)
Definition format (p : Providers) (v : JSON) : string :=
  match v with
  | JString s => s
  | _ => str_of p v
  end.

(** [dict.get(key, default)]. *)
Definition get (o : option string) (default : string) : string :=
  match o with
  | Some v => v
  | None => default
  end.

(** [sep.join(l)]. *)
Fixpoint str_join (sep : string) (l : list string) : string :=
  match l with
  | [] => ""
  | [x] => x
  | x :: r => x +:+ sep +:+ str_join sep r
  end.

(** [l[:n]]: a negative [n] counts from the end. *)
Definition slice_to {A} (n : Z) (l : list A) : list A :=
  if (0 <=? n)%Z then take (Z.to_nat n) l
  else take (Z.to_nat (Z.of_nat (length l) + n)) l.

(** [str.isspace] on one character. *)
Definition isspace (c : ascii) : bool :=
  ((9 <=? code c) && (code c <=? 13)
   || (28 <=? code c) && (code c <=? 32)
   || (code c =? 133) || (code c =? 160))%N.

Fixpoint lstrip (s : string) : string :=
  match s with
  | String c r => if isspace c then lstrip r else s
  | EmptyString => ""
  end.

Fixpoint rstrip (s : string) : string :=
  match s with
  | String c r =>
      match rstrip r with
      | EmptyString => if isspace c then "" else str1 c
      | r' => String c r'
      end
  | EmptyString => ""
  end.

(** [s.strip()]. *)
Definition strip (s : string) : string := lstrip (rstrip s).

(** The class [[.!?]]. *)
Definition is_stop (c : ascii) : bool :=
  ch_eq c "."%char || ch_eq c "!"%char || ch_eq c "?"%char.

(** Where the scan of [re.split(r'(?<=[.!?]) +', text)] stands: after a
    character that is no stop, after a stop, or inside a separator. *)
Inductive Scan := Plain | AfterStop | InGap.

(** [c] is put in front of the piece under construction. *)
Definition push (c : ascii) (pieces : list string) : list string :=
  match pieces with
  | piece :: rest => String c piece :: rest
  | [] => [str1 c]
  end.

(** The pieces of [text] from the current position on. A separator starts
    at a space that follows a stop and takes all the spaces after it. *)
Fixpoint split_from (st : Scan) (text : string) : list string :=
  match text with
  | EmptyString => [""]
  | String c r =>
      if ch_eq c " "%char then
        match st with
        | AfterStop => "" :: split_from InGap r
        | InGap => split_from InGap r
        | Plain => push c (split_from Plain r)
        end
      else push c (split_from (if is_stop c then AfterStop else Plain) r)
  end.

(** [re.split(r'(?<=[.!?]) +', text)]. *)
Definition split_sentences (text : string) : list string :=
  split_from Plain text.

Definition _get_and_summarize_content (p : Providers) (url : string) : string :=
  match paragraphs p url with
  | Got paras =>
      let text := str_join " " paras in
      let sentences := split_sentences text in
      match sentences with
      | _ :: _ => strip (str_join " " (slice_to (num_sentences p) sentences))
      | [] => "No content found."
      end
  | Failed e => "Error processing " +:+ url +:+ ": " +:+ e
  end.

(** What one result adds to the summary. *)
Definition result_block (p : Providers) (result : Result) : string :=
  let title := get (res_title result) "Title not available" in
  let url := get (res_href result) "" in
  let content := _get_and_summarize_content p url in
  "Title: " +:+ title +:+ nl +:+ "URL: " +:+ url +:+ nl
  +:+ " - Summary: " +:+ content +:+ nl +:+ nl.

Definition fetch_internet_information (p : Providers) (query : JSON) : string :=
  match ddgs_text p query with
  | Got results =>
      fold_left (fun summary result => summary +:+ result_block p result)
                results ""
  | Failed e => "Search error: " +:+ e
  end.

Definition decimal (n : nat) : string :=
  NilEmpty.string_of_uint (Nat.to_uint n).

(** What the page named [page_name], the [i]-th from 0, adds to the
    summary. *)
Definition page_block (p : Providers) (i : nat) (page_name : string) : string :=
  match wikipedia_page p page_name with
  | Got page =>
      "Page " +:+ decimal (i + 1) +:+ " - Title: " +:+ title page +:+ nl
      +:+ "URL: " +:+ url page +:+ nl
      +:+ " - Summary: " +:+ summary page +:+ nl +:+ nl
  | Failed e =>
      "Error processing page " +:+ page_name +:+ ": " +:+ e +:+ nl +:+ nl
  end.

(** The loop over [enumerate(pages[:3])], from index [i] on. *)
Fixpoint pages_loop (p : Providers) (i : nat) (pages : list string)
    (summary : string) : string :=
  match pages with
  | [] => summary
  | page_name :: rest =>
      pages_loop p (S i) rest (summary +:+ page_block p i page_name)
  end.

Definition _process_wikipedia_pages (p : Providers) (pages : list string)
  : string :=
  let summary := pages_loop p 0 (take 3 pages) "" in
  if String.eqb summary "" then "No Wikipedia results found." else summary.

Definition fetch_wikipedia_information (p : Providers) (wikipedia_query : JSON)
  : string :=
  match wikipedia_search p wikipedia_query with
  | Got pages => _process_wikipedia_pages p pages
  | Failed error =>
      "Error during Wikipedia search for " +:+ format p wikipedia_query
      +:+ ": " +:+ error
  end.

(** The characters of [s] that are not white space, in order. *)
Definition solid (s : string) : list ascii :=
  List.filter (fun c => negb (isspace c)) (chars s).

(** Text with nothing but white space in it. *)
Definition is_blank (s : string) : bool := forallb isspace (chars s).

End Tools.

(** The [Tools_Class] object over the providers [p]. *)
Definition tools_of (p : Tools.Providers) : Tools_Class :=
  {| fetch_wikipedia_information := Tools.fetch_wikipedia_information p;
     fetch_internet_information := Tools.fetch_internet_information p;
     now := Tools.clock p;
     ai_tools := Tools.tools_definition p |}.

(** A web with one page, a search engine that finds it, and a Wikipedia
    with one page. *)
Definition small_web : Tools.Providers :=
  {| Tools.ddgs_text := fun _ =>
       Tools.Got [ {| Tools.res_title := Some "Ada"; Tools.res_href := Some "http://a" |};
                   {| Tools.res_title := None; Tools.res_href := None |} ];
     Tools.paragraphs := fun url =>
       if String.eqb url "http://a"
       then Tools.Got ["Ada wrote notes.  She was first!"; " Was she? Yes."]
       else Tools.Failed "Invalid URL";
     Tools.wikipedia_search := fun _ => Tools.Got ["Ada Lovelace"; "Ada"];
     Tools.wikipedia_page := fun page_name =>
       if String.eqb page_name "Ada Lovelace"
       then Tools.Got {| Tools.title := "Ada Lovelace"; Tools.url := "http://w/Ada";
                         Tools.summary := "Mathematician." |}
       else Tools.Failed "ambiguous";
     Tools.clock := "2025-01-01 12:00:00";
     Tools.num_sentences := 2;
     Tools.tools_definition := JArray [];
     Tools.str_of := fun _ => "" |}.

(** A web whose only page has no text, and searches that find nothing. *)
Definition empty_web : Tools.Providers :=
  {| Tools.ddgs_text := fun _ => Tools.Got [];
     Tools.paragraphs := fun _ => Tools.Got [" "; ""];
     Tools.wikipedia_search := fun _ => Tools.Got [];
     Tools.wikipedia_page := fun _ => Tools.Failed "no page";
     Tools.clock := "2025-01-01 12:00:00";
     Tools.num_sentences := 3;
     Tools.tools_definition := JArray [];
     Tools.str_of := fun _ => "" |}.

(** The call can be served: its tool reads no argument, or the argument it
    reads is in the call's arguments. *)
Definition has_argument (env : Env) (tool_call : ToolCall) : Prop :=
  match required_argument (fn_name (call_function tool_call)) with
  | Some key =>
      exists v, subscript (parse_arguments env tool_call) key = Returned v
  | None => True
  end.

(** The calls of a batch that got their tool message. *)
Definition served (env : Env) (tool_calls : list ToolCall) : list ToolCall :=
  take (length (fst (batch env tool_calls))) tool_calls.

(** Providers that are all out of reach. *)
Definition offline : Tools.Providers :=
  {| Tools.ddgs_text := fun _ => Tools.Failed "offline";
     Tools.paragraphs := fun _ => Tools.Failed "offline";
     Tools.wikipedia_search := fun _ => Tools.Failed "offline";
     Tools.wikipedia_page := fun _ => Tools.Failed "offline";
     Tools.clock := "2025-01-01 12:00:00";
     Tools.num_sentences := 3;
     Tools.tools_definition := JArray [];
     Tools.str_of := fun _ => "" |}.

(** The model asks for a web search while the providers are out of reach. *)
Definition search_call : ToolCall :=
  call "call_1" "fetch_internet_information"
    ("{" +:+ quoted "query" +:+ ": " +:+ quoted "Ada Lovelace" +:+ "}").

Definition offline_env : Env :=
  {| config := demo_config;
     client := scripted (asks [search_call]) silent;
     tools := tools_of offline;
     loads := json_loads |}.

(** ** Shapes of a history and of a trace *)



(** [answers_in_order pending h]: in [h] every tool message answers the
    first call not yet answered of the assistant message that listed it;
    [pending] holds the ids listed and not yet answered. *)
Fixpoint answers_in_order (pending : list string) (h : list Message) : bool :=
  match h with
  | [] => true
  | Tool _ i :: r =>
      match pending with
      | p :: ps => String.eqb i p && answers_in_order ps r
      | [] => false
      end
  | AssistantToolCalls ds :: r => answers_in_order (map d_id ds) r
  | _ :: r => answers_in_order [] r
  end.

(** The calls of the last assistant message of [h] that listed calls and
    that have no tool message after it. *)
Fixpoint unanswered (pending : list string) (h : list Message) : list string :=
  match h with
  | [] => pending
  | Tool _ _ :: r => unanswered (tail pending) r
  | AssistantToolCalls ds :: r => unanswered (map d_id ds) r
  | _ :: r => unanswered [] r
  end.

(** What every request of the program looks like: it names the configured
    model, starts with the system message, and either carries the tool
    schema and a temperature and is not streamed, or carries neither and is
    streamed. *)
Definition well_formed_request (env : Env) (r : Request) : Prop :=
  req_model r = model_name (config env) /\
  head (req_messages r) = Some (System (config_system_prompt (config env))) /\
  (req_stream r = false /\ req_tools r = Some (ai_tools (tools env)) /\
   is_Some (req_temperature r)
   \/
   req_stream r = true /\ req_tools r = None /\ req_temperature r = None).

Definition well_formed_event (env : Env) (ev : Event) : Prop :=
  match ev with
  | Requested r => well_formed_request env r
  | Invoked _ _ => True
  end.

(** The names of the tools called, in the order of the trace. *)
Fixpoint invoked_names (sent : list Event) : list string :=
  match sent with
  | [] => []
  | Invoked name _ :: r => name :: invoked_names r
  | Requested _ :: r => invoked_names r
  end.

(** * Properties *)

(** ** Effects of the primitive computations *)

Lemma grows_refl w : grows w w [] [].
Proof. unfold grows. by rewrite !app_nil_r. Qed.

Lemma grows_trans w w1 w2 a1 a2 s1 s2 :
  grows w w1 a1 s1 -> grows w1 w2 a2 s2 -> grows w w2 (a1 ++ a2) (s1 ++ s2).
Proof.
  intros (Ha & Hm & Hh & Ht) (Ha' & Hm' & Hh' & Ht').
  unfold grows. rewrite Ha', Hm', Hh', Ht', Ha, Hm, Hh, Ht, !app_assoc. done.
Qed.

Lemma history_append_run m w :
  exists w', history_append m w = (Returned tt, w') /\ grows w w' [m] [].
Proof.
  eexists. split; [reflexivity|].
  unfold grows, history_of, deref; simpl.
  rewrite lookup_total_insert_eq, app_nil_r. done.
Qed.

Lemma send_run env r w :
  exists w', send env r w = (create (client env) r, w') /\
             grows w w' [] [Requested r].
Proof.
  eexists. split; [reflexivity|].
  unfold grows, history_of, deref; simpl. by rewrite app_nil_r.
Qed.

Lemma send_stream_run env r w :
  exists w', send_stream env r w = (create_stream (client env) r, w') /\
             grows w w' [] [Requested r].
Proof.
  eexists. split; [reflexivity|].
  unfold grows, history_of, deref; simpl. by rewrite app_nil_r.
Qed.

Lemma invoke_run name text w :
  exists w', invoke name text w = (Returned text, w') /\
             grows w w' [] [Invoked name (history_of w)].
Proof.
  eexists. split; [reflexivity|].
  unfold grows, history_of, deref; simpl. by rewrite app_nil_r.
Qed.

Lemma bind_returned {A B} (m : Py A) (k : A -> Py B) w a w' :
  m w = (Returned a, w') -> bind m k w = k a w'.
Proof. unfold bind. by intros ->. Qed.

Lemma bind_raised {A B} (m : Py A) (k : A -> Py B) w e w' :
  m w = (Raised e, w') -> bind m k w = (Raised e, w').
Proof. unfold bind. by intros ->. Qed.

(** ** The tool executor *)

Lemma invoke_seen name text w :
  exists w' sent,
    invoke name text w = (Returned text, w') /\
    grows w w' [] sent /\ Forall (seen_from (history_of w)) sent.
Proof.
  destruct (invoke_run name text w) as (w' & Hr & Hg).
  exists w', [Invoked name (history_of w)]. split; [done|]. split; [done|].
  constructor; [simpl; done | constructor].
Qed.

Lemma subscript_then_invoke name (o : Outcome JSON) (f : JSON -> string) w :
  exists w' sent,
    (a <- lift o ;; invoke name (f a)) w
    = (match o with Returned a => Returned (f a) | Raised e => Raised e end, w') /\
    grows w w' [] sent /\ Forall (seen_from (history_of w)) sent.
Proof.
  unfold bind, lift. destruct o as [a|e].
  - apply invoke_seen.
  - exists w, []. split; [done|]. split; [apply grows_refl|constructor].
Qed.

Lemma execute_run env name args w :
  exists w' sent,
    execute env name args w = (result_text env name args, w') /\
    grows w w' [] sent /\ Forall (seen_from (history_of w)) sent.
Proof.
  unfold execute, result_text.
  destruct (String.eqb name "fetch_wikipedia_information");
    [apply subscript_then_invoke|].
  destruct (String.eqb name "fetch_internet_information");
    [apply subscript_then_invoke|].
  destruct (String.eqb name "get_current_date_and_time");
    [apply invoke_seen|].
  exists w, []. split; [done|]. split; [apply grows_refl|constructor].
Qed.

Lemma seen_from_weaken h h' sent :
  h `prefix_of` h' -> Forall (seen_from h') sent -> Forall (seen_from h) sent.
Proof.
  intros Hp Hs. eapply Forall_impl; [exact Hs|].
  intros [r|n seen]; simpl; [done|]. intros. by etrans.
Qed.

(** A batch appends the messages of [batch], in order, up to the first
    call that raises; every tool it calls sees the history the batch
    started from. *)
Lemma process_run env tool_calls : forall w,
  exists w' sent,
    _process_tool_calls env tool_calls w
    = (finish (snd (batch env tool_calls)), w') /\
    grows w w' (fst (batch env tool_calls)) sent /\
    Forall (seen_from (history_of w)) sent.
Proof.
  induction tool_calls as [|tc rest IH]; intros w; simpl.
  - exists w, []. split; [done|]. split; [apply grows_refl|constructor].
  - unfold call_result.
    destruct (execute_run env (fn_name (call_function tc))
                (parse_arguments env tc) w) as (w1 & s1 & Hx & Hg1 & Hs1).
    destruct (result_text env (fn_name (call_function tc))
                (parse_arguments env tc)) as [result|e].
    + rewrite (bind_returned _ _ _ _ _ Hx).
      destruct (history_append_run (tool_message result tc) w1)
        as (w2 & Ha & Hg2).
      rewrite (bind_returned _ _ _ _ _ Ha).
      destruct (IH w2) as (w3 & s3 & Hp & Hg3 & Hs3).
      destruct (batch env rest) as [ms oe]; simpl in *.
      exists w3, (s1 ++ s3). split; [done|]. split.
      * pose proof (grows_trans _ _ _ _ _ _ _ Hg1
                      (grows_trans _ _ _ _ _ _ _ Hg2 Hg3)) as Hg.
        simpl in Hg. done.
      * apply Forall_app. split; [done|].
        eapply seen_from_weaken; [|exact Hs3].
        destruct Hg1 as (_ & _ & H1 & _), Hg2 as (_ & _ & H2 & _).
        rewrite H2, H1, app_nil_r. by apply prefix_app_r.
    + rewrite (bind_raised _ _ _ _ _ Hx). simpl.
      exists w1, s1. done.
Qed.

(** ** The streamed answer *)

Lemma append_empty_r s : s +:+ "" = s.
Proof.
  induction s as [|c s IH]; [done|].
  change (String c (s +:+ "") = String c s). by rewrite IH.
Qed.

Lemma append_assoc a b c : (a +:+ b) +:+ c = a +:+ (b +:+ c).
Proof.
  induction a as [|x a IH]; [done|].
  change (String x ((a +:+ b) +:+ c) = String x (a +:+ (b +:+ c))).
  by rewrite IH.
Qed.


Lemma final_run env w :
  let r := second_request (ai_chat w) (history_of w) in
  exists w',
    _generate_final_response env w = (stream_outcome env r, w') /\
    grows w w' (final_message (stream_outcome env r)) [Requested r].
Proof.
  intros r. unfold _generate_final_response, stream_outcome.
  unfold bind at 1; simpl. unfold bind at 1; simpl.
  destruct (send_stream_run env r w) as (w1 & Hs & Hg1).
  fold r. destruct (create_stream (client env) r) as [items|e].
  - rewrite (bind_returned _ _ _ _ _ Hs).
    unfold bind at 1, lift.
    destruct (consume items "") as [out|e]; simpl.
    + destruct (history_append_run (Assistant (Some out)) w1) as (w2 & Ha & Hg2).
      rewrite (bind_returned _ _ _ _ _ Ha). unfold ret.
      exists w2. split; [done|].
      apply (grows_trans _ _ _ _ _ _ _ Hg1 Hg2).
    + exists w1. done.
  - rewrite (bind_raised _ _ _ _ _ Hs). exists w1. done.
Qed.

(** ** The three ways a turn can go *)

Section Turn.
Variable env : Env.
Variable message : string.
Variable w : World.

Lemma turn_start :
  exists w1,
    generation_loop env message w
    = (response <- lift (create (client env) (opening_request env message w)) ;;
       match requested (msg_tool_calls response) with
       | (_ :: _) as tool_calls =>
           _add_tool_calls_to_history tool_calls ;;
           _process_tool_calls env tool_calls ;;
           final <- _generate_final_response env ;;
           ret (Some final)
       | [] =>
           let content := msg_content response in
           history_append (Assistant content) ;;
           ret content
       end) w1 /\
    grows w w1 [User message] [Requested (opening_request env message w)].
Proof.
  destruct (history_append_run (User message) w) as (w0 & Ha & Hg0).
  destruct Hg0 as (Hc & Hm & Hh & Ht).
  exists (log (Requested (opening_request env message w)) w0). split.
  - unfold generation_loop. rewrite (bind_returned _ _ _ _ _ Ha).
    unfold opening_request. rewrite <- Hc, <- Hh. reflexivity.
  - unfold grows, history_of, deref in *; simpl.
    rewrite Hc, Hm, Ht. rewrite Hc in Hh. rewrite Hh.
    by rewrite app_nil_r.
Qed.

(** The first model call fails. *)
Lemma turn_first_call_fails e :
  create (client env) (opening_request env message w) = Raised e ->
  exists w',
    generation_loop env message w = (Raised e, w') /\
    grows w w' [User message] [Requested (opening_request env message w)].
Proof.
  intros Hc. destruct turn_start as (w1 & -> & Hg).
  exists w1. split; [|done]. unfold bind, lift. by rewrite Hc.
Qed.

(** The model answers without asking for a tool. *)
Lemma turn_direct response :
  create (client env) (opening_request env message w) = Returned response ->
  requested (msg_tool_calls response) = [] ->
  exists w',
    generation_loop env message w = (Returned (msg_content response), w') /\
    grows w w' [User message; Assistant (msg_content response)]
          [Requested (opening_request env message w)].
Proof.
  intros Hc Hn. destruct turn_start as (w1 & -> & Hg).
  unfold bind at 1, lift. rewrite Hc, Hn. simpl.
  destruct (history_append_run (Assistant (msg_content response)) w1)
    as (w2 & Ha & Hg2).
  rewrite (bind_returned _ _ _ _ _ Ha). exists w2. split; [done|].
  apply (grows_trans _ _ _ _ _ _ _ Hg Hg2).
Qed.

(** The model asks for tools: what the turn returns and appends is fixed
    by the batch and by the streamed answer. *)
Lemma turn_tools response tool_calls :
  create (client env) (opening_request env message w) = Returned response ->
  requested (msg_tool_calls response) = tool_calls ->
  tool_calls <> [] ->
  let h2 := (history_of w ++ [User message]) ++ [calls_message tool_calls] in
  let r1 := opening_request env message w in
  let r2 := closing_request env message w tool_calls in
  exists w' invoked,
    Forall (seen_from h2) invoked /\
    match snd (batch env tool_calls) with
    | Some e =>
        generation_loop env message w = (Raised e, w') /\
        grows w w'
          ([User message; calls_message tool_calls]
             ++ fst (batch env tool_calls))
          (Requested r1 :: invoked)
    | None =>
        generation_loop env message w
        = (match stream_outcome env r2 with
           | Returned final => Returned (Some final)
           | Raised e => Raised e
           end, w') /\
        grows w w'
          ([User message; calls_message tool_calls]
             ++ fst (batch env tool_calls)
             ++ final_message (stream_outcome env r2))
          (Requested r1 :: invoked ++ [Requested r2])
    end.
Proof.
  intros Hc Hn Hne h2 r1 r2. destruct turn_start as (w1 & Hgl & Hg).
  destruct tool_calls as [|tc rest]; [done|].
  set (tcs := tc :: rest) in *.
  assert (Hgl' : generation_loop env message w
                 = (_add_tool_calls_to_history tcs ;;
                    _process_tool_calls env tcs ;;
                    final <- _generate_final_response env ;;
                    ret (Some final)) w1).
  { rewrite Hgl. unfold bind at 1, lift. rewrite Hc, Hn. reflexivity. }
  clear Hgl. revert Hgl'.
  destruct (history_append_run (calls_message tcs) w1) as (w2 & Ha & Hg2).
  change (_add_tool_calls_to_history tcs) with (history_append (calls_message tcs)).
  rewrite (bind_returned _ _ _ _ _ Ha). intros Hgl.
  pose proof (grows_trans _ _ _ _ _ _ _ Hg Hg2) as Hg12. simpl in Hg12.
  destruct (process_run env tcs w2) as (w3 & invoked & Hp & Hg3 & Hs).
  assert (Hg13 : grows w w3
            ([User message; calls_message tcs] ++ fst (batch env tcs))
            (Requested r1 :: invoked))
    by exact (grows_trans _ _ _ _ _ _ _ Hg12 Hg3).
  assert (Hh2 : history_of w2 = h2).
  { destruct Hg12 as (_ & _ & -> & _). subst h2.
    by rewrite <- app_assoc. }
  rewrite Hh2 in Hs.
  destruct (snd (batch env tcs)) as [e|] eqn:Hb; unfold finish in Hp.
  - exists w3, invoked. split; [done|].
    rewrite Hgl, (bind_raised _ _ _ _ _ Hp). done.
  - destruct (final_run env w3) as (w4 & Hf & Hg4).
    assert (Hr : second_request (ai_chat w3) (history_of w3) = r2).
    { destruct Hg13 as (-> & _ & -> & _). subst r2 h2. unfold closing_request.
      f_equal. by rewrite <- !app_assoc. }
    rewrite Hr in Hf, Hg4.
    exists w4, invoked. split; [done|].
    rewrite Hgl, (bind_returned _ _ _ _ _ Hp). split.
    + unfold bind at 1. rewrite Hf.
      by destruct (stream_outcome env r2).
    + pose proof (grows_trans _ _ _ _ _ _ _ Hg13 Hg4) as Hg14.
      rewrite <- app_assoc in Hg14. exact Hg14.
Qed.
End Turn.

(** Whatever a turn does, it keeps the object's attributes and appends to
    the history, the user's message first. *)
Lemma turn_grows env message w :
  exists more sent,
    grows w (after (generation_loop env message) w) (User message :: more) sent.
Proof.
  unfold after.
  destruct (create (client env) (opening_request env message w))
    as [response|e] eqn:Hc.
  - destruct (requested (msg_tool_calls response)) as [|tc rest] eqn:Hn.
    + destruct (turn_direct env message w response Hc Hn) as (w' & -> & Hg).
      eauto.
    + destruct (turn_tools env message w response (tc :: rest) Hc Hn)
        as (w' & invoked & _ & H); [done|].
      destruct (snd (batch env (tc :: rest))); destruct H as (-> & Hg); eauto.
  - destruct (turn_first_call_fails env message w e Hc) as (w' & -> & Hg).
    eauto.
Qed.

(** ** The two attributes name one list *)

Lemma reachable_alias env w :
  reachable env w -> history (ai_chat w) = system_prompt (ai_chat w).
Proof.
  induction 1 as [|w message _ IH| |]; try done.
  destruct (turn_grows env message w) as (more & sent & (-> & _)). done.
Qed.

(** ** A batch that runs to its end *)

Lemma batch_complete env tool_calls :
  snd (batch env tool_calls) = None ->
  Forall2 (fun m tool_call =>
             exists result,
               call_result env tool_call = Returned result /\
               m = tool_message result tool_call)
          (fst (batch env tool_calls)) tool_calls.
Proof.
  induction tool_calls as [|tc rest IH]; simpl; [constructor|].
  destruct (call_result env tc) as [result|e] eqn:Hr; [|done].
  destruct (batch env rest) as [ms oe]; simpl in *.
  intros ->. constructor; [by exists result | by apply IH].
Qed.

Lemma batch_ids env tool_calls :
  snd (batch env tool_calls) = None ->
  map tool_call_id_of (fst (batch env tool_calls))
  = map (fun tool_call => Some (call_id tool_call)) tool_calls.
Proof.
  intros H. apply batch_complete in H.
  induction H as [|m tc ms tcs (result & _ & ->) _ IH]; simpl; [done|].
  by rewrite IH.
Qed.


(** * The stated properties *)

(** C8. A turn whose first model response asks for no tool appends two
    messages, the user's and one assistant message, and returns that
    assistant message's content. *)
Theorem direct_answer_appends_two env message w response :
  create (client env) (opening_request env message w) = Returned response ->
  requested (msg_tool_calls response) = [] ->
  exists w',
    generation_loop env message w = (Returned (msg_content response), w') /\
    history_of w'
    = history_of w ++ [User message; Assistant (msg_content response)] /\
    length (history_of w') = length (history_of w) + 2 /\
    last (history_of w') = Some (Assistant (msg_content response)).
Proof.
  intros Hc Hn.
  destruct (turn_direct env message w response Hc Hn)
    as (w' & Hr & _ & _ & Hh & _).
  exists w'. rewrite Hh. split; [done|]. split; [done|]. split.
  - rewrite length_app. done.
  - change [User message; Assistant (msg_content response)]
      with ([User message] ++ [Assistant (msg_content response)]).
    by rewrite !app_assoc, last_snoc.
Qed.

Lemma direct_answer_appends_two_witness :
  exists w',
    generation_loop hello_env "Hello" (start hello_env)
    = (Returned (Some "Hi there!"), w') /\
    history_of w'
    = history_of (start hello_env)
        ++ [User "Hello"; Assistant (Some "Hi there!")] /\
    length (history_of w') = length (history_of (start hello_env)) + 2 /\
    last (history_of w') = Some (Assistant (Some "Hi there!")).
Proof.
  apply (direct_answer_appends_two hello_env "Hello" (start hello_env)
           hello_response); reflexivity.
Defined.

(** The greeting scenario: three messages after the turn. *)
Example hello_scenario :
  let r := generation_loop hello_env "Hello" (start hello_env) in
  fst r = Returned (Some "Hi there!") /\
  history_of (snd r)
  = [System "You are a helpful assistant."; User "Hello";
     Assistant (Some "Hi there!")].
Proof. vm_compute. done. Qed.

(** ** Tool calls that the program cannot serve *)

Lemma known_tool_false name :
  known_tool name = false ->
  String.eqb name "fetch_wikipedia_information" = false /\
  String.eqb name "fetch_internet_information" = false /\
  String.eqb name "get_current_date_and_time" = false.
Proof.
  unfold known_tool. intros H.
  apply orb_false_elim in H as [H H3]. apply orb_false_elim in H as [H1 H2].
  done.
Qed.

Lemma execute_unknown env name args w :
  known_tool name = false -> execute env name args w = (Returned sentinel, w).
Proof.
  intros (H1 & H2 & H3)%known_tool_false. unfold execute.
  by rewrite H1, H2, H3.
Qed.

Lemma execute_raises env name args key e w :
  required_argument name = Some key ->
  subscript args key = Raised e ->
  execute env name args w = (Raised e, w).
Proof.
  unfold required_argument, execute. intros Hk Hs.
  destruct (String.eqb name "fetch_wikipedia_information").
  - injection Hk as <-. unfold bind, lift. by rewrite Hs.
  - destruct (String.eqb name "fetch_internet_information"); [|done].
    injection Hk as <-. unfold bind, lift. by rewrite Hs.
Qed.

Lemma process_raises env tool_call rest key e w :
  required_argument (fn_name (call_function tool_call)) = Some key ->
  subscript (parse_arguments env tool_call) key = Raised e ->
  _process_tool_calls env (tool_call :: rest) w = (Raised e, w).
Proof.
  intros Hk Hs. simpl.
  by rewrite (bind_raised _ _ _ _ _ (execute_raises env _ _ key e w Hk Hs)).
Qed.

Lemma unknown_call_result env tool_call :
  known_tool (fn_name (call_function tool_call)) = false ->
  call_result env tool_call = Returned sentinel.
Proof.
  intros (H1 & H2 & H3)%known_tool_false.
  unfold call_result, result_text. by rewrite H1, H2, H3.
Qed.

(** C5. A tool call whose name is none of the three known tools gets the
    text "Error: not all variables have been provided." as the message of
    its result, whatever its arguments are. *)
Theorem unknown_tool_gets_sentinel env tool_call w :
  known_tool (fn_name (call_function tool_call)) = false ->
  call_result env tool_call
  = Returned "Error: not all variables have been provided." /\
  member "message"
    (tool_message "Error: not all variables have been provided." tool_call)
  = Some (JString "Error: not all variables have been provided.") /\
  exists w',
    _process_tool_calls env [tool_call] w = (Returned tt, w') /\
    history_of w'
    = history_of w
        ++ [tool_message "Error: not all variables have been provided."
              tool_call].
Proof.
  intros Hk. split; [|split; [reflexivity|]].
  - apply known_tool_false in Hk as (H1 & H2 & H3).
    unfold call_result, result_text. by rewrite H1, H2, H3.
  - simpl. rewrite (bind_returned _ _ _ _ _ (execute_unknown env _ _ w Hk)).
    destruct (history_append_run (tool_message sentinel tool_call) w)
      as (w' & Ha & _ & _ & Hh & _).
    rewrite (bind_returned _ _ _ _ _ Ha). by exists w'.
Qed.

Lemma unknown_tool_gets_sentinel_witness :
  call_result stray_env (call "call_1" "translate_text" "{not json")
  = Returned "Error: not all variables have been provided." /\
  member "message"
    (tool_message "Error: not all variables have been provided."
       (call "call_1" "translate_text" "{not json"))
  = Some (JString "Error: not all variables have been provided.") /\
  exists w',
    _process_tool_calls stray_env [call "call_1" "translate_text" "{not json"]
      (start stray_env) = (Returned tt, w') /\
    history_of w'
    = history_of (start stray_env)
        ++ [tool_message "Error: not all variables have been provided."
              (call "call_1" "translate_text" "{not json")].
Proof.
  apply (unknown_tool_gets_sentinel stray_env
           (call "call_1" "translate_text" "{not json") (start stray_env)).
  reflexivity.
Defined.

(** C2. A tool call whose arguments parse to a dict without the argument
    the tool reads: the lookup raises [KeyError], nothing catches it, the
    batch stops there with no message appended, and the remaining calls
    are not run. *)
Theorem missing_argument_aborts_batch env tool_call rest w key d :
  required_argument (fn_name (call_function tool_call)) = Some key ->
  loads env (fn_arguments (call_function tool_call)) = Returned (JObject d) ->
  dict_get key d = None ->
  _process_tool_calls env (tool_call :: rest) w = (Raised (KeyError key), w).
Proof.
  intros Hk Hl Hd. apply (process_raises env tool_call rest key); [done|].
  unfold parse_arguments. rewrite Hl. simpl. by rewrite Hd.
Qed.

Lemma missing_argument_aborts_batch_witness :
  _process_tool_calls lookup_env lookup_calls (start lookup_env)
  = (Raised (KeyError "wikipedia_query"), start lookup_env).
Proof.
  apply (missing_argument_aborts_batch lookup_env
           (call "call_1" "fetch_wikipedia_information" "{}")
           [call "call_2" "get_current_date_and_time" "{}"]
           (start lookup_env) "wikipedia_query" []); reflexivity.
Defined.

(** The same turn seen from its caller: the exception leaves
    [generation_loop], and the history ends with the assistant message
    that announces two calls, neither of them answered. *)
Example lookup_scenario :
  let r := generation_loop lookup_env "Who was Ada Lovelace?" (start lookup_env) in
  fst r = Raised (KeyError "wikipedia_query") /\
  history_of (snd r)
  = [System "You are a helpful assistant."; User "Who was Ada Lovelace?";
     calls_message lookup_calls].
Proof. vm_compute. done. Qed.

(** C6. Arguments that [json.loads] rejects are replaced by the empty
    dict; for a tool that reads an argument the lookup in that empty dict
    then raises [KeyError], which leaves the executor. *)
Theorem garbled_arguments_raise env tool_call rest w key e :
  required_argument (fn_name (call_function tool_call)) = Some key ->
  loads env (fn_arguments (call_function tool_call)) = Raised e ->
  parse_arguments env tool_call = JObject [] /\
  _process_tool_calls env (tool_call :: rest) w = (Raised (KeyError key), w).
Proof.
  intros Hk Hl.
  assert (Hp : parse_arguments env tool_call = JObject [])
    by (unfold parse_arguments; by rewrite Hl).
  split; [done|].
  apply (process_raises env tool_call rest key); [done|]. by rewrite Hp.
Qed.

Lemma garbled_arguments_raise_witness :
  parse_arguments garbled_env
    (call "call_1" "fetch_internet_information" "{not json") = JObject [] /\
  _process_tool_calls garbled_env garbled_calls (start garbled_env)
  = (Raised (KeyError "query"), start garbled_env).
Proof.
  apply (garbled_arguments_raise garbled_env
           (call "call_1" "fetch_internet_information" "{not json") []
           (start garbled_env) "query" JSONDecodeError); reflexivity.
Defined.

(** Where the tool reads no argument, garbled arguments do no harm: the
    call is served and its message appended. *)
Lemma garbled_arguments_unused env tool_call w e :
  required_argument (fn_name (call_function tool_call)) = None ->
  loads env (fn_arguments (call_function tool_call)) = Raised e ->
  exists w' result,
    _process_tool_calls env [tool_call] w = (Returned tt, w') /\
    history_of w' = history_of w ++ [tool_message result tool_call].
Proof.
  intros Hk _.
  destruct (process_run env [tool_call] w) as (w' & sent & Hp & Hg & _).
  revert Hp Hg. simpl. unfold call_result, result_text.
  revert Hk. unfold required_argument.
  destruct (String.eqb _ "fetch_wikipedia_information"); [done|].
  destruct (String.eqb _ "fetch_internet_information"); [done|].
  intros _.
  destruct (String.eqb _ "get_current_date_and_time"); simpl;
    intros Hp (_ & _ & Hh & _); eauto.
Qed.

(** ** A turn with tool calls *)

(** A turn that asked for tools and returned went through its batch and
    its streamed answer without an exception. *)
Lemma tools_turn_returned env message w response tool_calls final w' :
  create (client env) (opening_request env message w) = Returned response ->
  requested (msg_tool_calls response) = tool_calls ->
  tool_calls <> [] ->
  generation_loop env message w = (Returned final, w') ->
  exists ai_output invoked,
    snd (batch env tool_calls) = None /\
    stream_outcome env (closing_request env message w tool_calls)
    = Returned ai_output /\
    final = Some ai_output /\
    Forall (seen_from (history_of w ++ [User message; calls_message tool_calls]))
           invoked /\
    grows w w'
      ([User message; calls_message tool_calls]
         ++ fst (batch env tool_calls) ++ [Assistant (Some ai_output)])
      (Requested (opening_request env message w)
         :: invoked
         ++ [Requested (closing_request env message w tool_calls)]).
Proof.
  intros Hc Hn Hne Hr.
  destruct (turn_tools env message w response tool_calls Hc Hn Hne)
    as (w'' & invoked & Hs & H).
  rewrite <- app_assoc in Hs.
  destruct (snd (batch env tool_calls)) as [e|];
    destruct H as (Hr' & Hg); rewrite Hr' in Hr; [done|].
  change (second_request _ _) with (closing_request env message w tool_calls)
    in Hr, Hg.
  destruct (stream_outcome env (closing_request env message w tool_calls))
    as [ai_output|e]; [|done].
  injection Hr as <- <-. by exists ai_output, invoked.
Qed.

(** A batch in which every call ends with a text runs to its end. *)
Lemma batch_runs env tool_calls :
  Forall (fun tool_call => exists result,
              call_result env tool_call = Returned result) tool_calls ->
  snd (batch env tool_calls) = None.
Proof.
  induction 1 as [|tc rest (result & Hr) _ IH]; simpl; [done|].
  rewrite Hr. by destruct (batch env rest).
Qed.

(** Such a turn does return when no call of its batch raises and the
    stream arrives whole. *)
Lemma tools_turn_returns env message w response ai_output :
  create (client env) (opening_request env message w) = Returned response ->
  requested (msg_tool_calls response) <> [] ->
  snd (batch env (requested (msg_tool_calls response))) = None ->
  stream_outcome env
    (closing_request env message w (requested (msg_tool_calls response)))
  = Returned ai_output ->
  exists w', generation_loop env message w = (Returned (Some ai_output), w').
Proof.
  intros Hc Hne Hb Hso.
  destruct (turn_tools env message w response _ Hc eq_refl Hne)
    as (w' & invoked & _ & H).
  rewrite Hb in H. cbv zeta in H. rewrite Hso in H.
  destruct H as (Hr & _). by exists w'.
Qed.

(** The clock scenario: five messages after the turn. *)
Example time_scenario :
  let r := generation_loop time_env "What time is it?" (start time_env) in
  fst r = Returned (Some "It is noon.") /\
  length (history_of (snd r)) = 5 /\
  history_of (snd r) !! 3
  = Some (tool_message "The current date and time is: 2025-01-01 12:00:00"
            (call "call_1" "get_current_date_and_time" "{}")).
Proof. vm_compute. done. Qed.

(** ** A model call that fails *)

(** C7, as stated, fails: when the first model call raises,
    the exception reaches the caller, but the user's message, appended
    before the call, stays in the history with no reply after it. *)
Lemma model_failure_counterexample :
  let r := generation_loop down_env "Hello" (start down_env) in
  fst r = Raised refused /\
  history_of (start down_env) = [System "You are a helpful assistant."] /\
  history_of (snd r) = [System "You are a helpful assistant."; User "Hello"] /\
  history_of (snd r) <> history_of (start down_env).
Proof. vm_compute. repeat split; discriminate. Qed.

(** C7, amended. When either model call of a turn fails, the exception
    reaches the caller of [generation_loop] as it was raised, and the
    history is exactly the list of messages that the failed request
    carried: everything the turn appended before that call stays, the
    user's message first, and nothing is appended after it. *)
Theorem model_failure_keeps_sent_history env message w e :
  first_call_fails env message w e \/ second_call_fails env message w e ->
  exists w' r before,
    generation_loop env message w = (Raised e, w') /\
    trace w' = trace w ++ before ++ [Requested r] /\
    history_of w' = req_messages r /\
    (history_of w ++ [User message]) `prefix_of` history_of w'.
Proof.
  intros [Hf | (response & Hc & Hne & Hb & Hso)].
  - destruct (turn_first_call_fails env message w e Hf)
      as (w' & Hr & _ & _ & Hh & Ht).
    exists w', (opening_request env message w), [].
    split; [done|]. split; [done|]. split; [done|]. by rewrite Hh.
  - destruct (turn_tools env message w response _ Hc eq_refl Hne)
      as (w' & invoked & _ & H).
    rewrite Hb in H.
    change (second_request _ _)
      with (closing_request env message w (requested (msg_tool_calls response)))
      in H.
    rewrite Hso in H. destruct H as (Hr & _ & _ & Hh & Ht).
    exists w', (closing_request env message w (requested (msg_tool_calls response))),
      (Requested (opening_request env message w) :: invoked).
    split; [done|]. split; [done|]. simpl in Hh. rewrite app_nil_r in Hh.
    split.
    + rewrite Hh. simpl. by rewrite <- !app_assoc.
    + rewrite Hh. eexists. by rewrite <- app_assoc.
Qed.

Lemma model_failure_keeps_sent_history_witness :
  exists w' r before,
    generation_loop down_env "Hello" (start down_env) = (Raised refused, w') /\
    trace w' = trace (start down_env) ++ before ++ [Requested r] /\
    history_of w' = req_messages r /\
    (history_of (start down_env) ++ [User "Hello"]) `prefix_of` history_of w'.
Proof.
  apply (model_failure_keeps_sent_history down_env "Hello" (start down_env)
           refused).
  left. reflexivity.
Defined.

(** A stream that breaks: the assistant message that lists the call and
    the tool message stay, the final assistant message is missing. *)
Example cut_scenario :
  let r := generation_loop cut_env "What time is it?" (start cut_env) in
  fst r = Raised (APIError "connection reset") /\
  map role (history_of (snd r)) = [system; user; assistant; tool] /\
  second_call_fails cut_env "What time is it?" (start cut_env)
    (APIError "connection reset").
Proof.
  split; [vm_compute; done|]. split; [vm_compute; done|].
  exists {| msg_content := None; msg_tool_calls := Some time_calls |}.
  repeat split; try done. 
Qed.

(** ** Reset *)

Lemma clear_keeps_history env w :
  reachable env w ->
  history_of (after _clear_chat_history w) = history_of w /\
  system_prompt_of (after _clear_chat_history w) = history_of w.
Proof.
  intros Hr. apply reachable_alias in Hr.
  unfold history_of, system_prompt_of, deref, after; simpl.
  by rewrite Hr.
Qed.

(** On one object the assignment in [_clear_chat_history] changes nothing,
    since [history] and [system_prompt] name the same list: called after a
    turn on the same object it would leave the history as long as it was. *)
Lemma reset_keeps_history env w :
  reachable env w ->
  history_of (after _clear_chat_history w) = history_of w /\
  length (history_of (after _clear_chat_history w)) = length (history_of w) /\
  history (ai_chat (after _clear_chat_history w)) = history (ai_chat w) /\
  messages (after _clear_chat_history w) = [].
Proof.
  intros Hr. destruct (clear_keeps_history env w Hr) as (Hh & _).
  rewrite Hh. repeat split.
  apply reachable_alias in Hr. simpl. by rewrite Hr.
Qed.

Lemma reset_keeps_history_witness :
  let w := after (generation_loop hello_env "Hello") (start hello_env) in
  history_of (after _clear_chat_history w)
  = [System "You are a helpful assistant."; User "Hello";
     Assistant (Some "Hi there!")] /\
  length (history_of (after _clear_chat_history w)) = 3.
Proof.
  intros w.
  destruct (reset_keeps_history hello_env w) as (Hh & Hl & _).
  - apply reach_turn, reach_init.
  - rewrite Hl, Hh. split; vm_compute; reflexivity.
Defined.

(** A reset with no turn before it does leave the system message alone. *)
Example reset_at_start :
  history_of (after _clear_chat_history (start hello_env))
  = [System "You are a helpful assistant."].
Proof. vm_compute. done. Qed.

(** ** Reading a tool message back *)

Lemma chars_app a b : chars (a +:+ b) = chars a ++ chars b.
Proof.
  induction a as [|x a IH]; [done|].
  change (x :: chars (a +:+ b) = x :: chars a ++ chars b). by rewrite IH.
Qed.

(** The scanner undoes the escape of one character. *)
Lemma scan_escape_char c tl :
  scan_string (chars (escape_char c) ++ tl)
  = prod_map (String c) id <$> scan_string tl.
Proof.
  destruct c as [b0 b1 b2 b3 b4 b5 b6 b7];
    destruct b0, b1, b2, b3, b4, b5, b6, b7; reflexivity.
Qed.

Lemma scan_escape s tl :
  scan_string (chars (escape s) ++ dquote :: tl) = Some (s, tl).
Proof.
  induction s as [|c s IH]; [done|].
  change (escape (String c s)) with (escape_char c +:+ escape s).
  by rewrite chars_app, <- app_assoc, scan_escape_char, IH.
Qed.

Lemma scan_tool_result n body result :
  (forall tl, scan_string (body ++ dquote :: tl) = Some (result, tl)) ->
  scan_value (S (S (S (S n))))
    (chars "{" ++ dquote :: chars "status" ++ dquote :: chars ": "
       ++ dquote :: chars "success" ++ dquote :: chars ", "
       ++ dquote :: chars "message" ++ dquote :: chars ": "
       ++ dquote :: body ++ dquote :: chars "}")
  = Some (JObject [("status", JString "success"); ("message", JString result)],
          []).
Proof.
  intros Hb. simpl. rewrite Hb. reflexivity.
Qed.

Lemma loads_tool_result result :
  json_loads (json_dumps [("status", "success"); ("message", result)])
  = Returned (JObject [("status", JString "success");
                       ("message", JString result)]).
Proof.
  unfold json_loads.
  assert (Hc : chars (json_dumps [("status", "success"); ("message", result)])
               = chars "{" ++ dquote :: chars "status" ++ dquote :: chars ": "
                   ++ dquote :: chars "success" ++ dquote :: chars ", "
                   ++ dquote :: chars "message" ++ dquote :: chars ": "
                   ++ dquote :: chars (escape result) ++ dquote :: chars "}").
  { unfold json_dumps, dumps_members, dumps_str.
    rewrite !chars_app, <- !app_assoc. reflexivity. }
  rewrite Hc.
  set (cs := chars "{" ++ _).
  assert (Hf : exists n, 2 * length cs + 2 = S (S (S (S n)))).
  { exists (2 * length cs - 2). subst cs. simpl. lia. }
  destruct Hf as (n & ->).
  change (skip_ws cs) with cs. subst cs.
  rewrite (scan_tool_result n (chars (escape result)) result); [done|].
  intros tl. apply scan_escape.
Qed.

Lemma member_status result i :
  member "status"
    (Tool (json_dumps [("status", "success"); ("message", result)]) i)
  = Some (JString "success").
Proof. unfold member. by rewrite loads_tool_result. Qed.

Lemma member_message result i :
  member "message"
    (Tool (json_dumps [("status", "success"); ("message", result)]) i)
  = Some (JString result).
Proof. unfold member. by rewrite loads_tool_result. Qed.

(** ** The status of a tool result *)

(** C3, as stated, fails: the call of a tool the program does
    not have ends in the error text, and the tool message appended for it
    reads back with status "success", not "error". *)
Lemma error_status_counterexample :
  let w' := after (generation_loop stray_env "Translate this") (start stray_env) in
  known_tool "translate_text" = false /\
  exists m,
    history_of w' !! 3 = Some m /\
    role m = tool /\
    tool_call_id_of m = Some "call_1" /\
    member "message" m
    = Some (JString "Error: not all variables have been provided.") /\
    member "status" m = Some (JString "success") /\
    member "status" m <> Some (JString "error").
Proof.
  intros w'. split; [reflexivity|].
  exists (tool_message sentinel (call "call_1" "translate_text" "{}")).
  split; [vm_compute; reflexivity|].
  split; [reflexivity|]. split; [reflexivity|].
  unfold tool_message. rewrite member_status, member_message.
  split; [reflexivity|]. split; [reflexivity|]. discriminate.
Qed.

(** * Further properties of the loop *)

(** ** Every way a turn can go, in one statement *)

Lemma turn_cases env message w :
  exists o w' added sent,
    generation_loop env message w = (o, w') /\
    grows w w' added sent /\
    ((exists e,
         create (client env) (opening_request env message w) = Raised e /\
         o = Raised e /\
         added = [User message] /\
         sent = [Requested (opening_request env message w)])
     \/
     (exists response,
         create (client env) (opening_request env message w) = Returned response /\
         requested (msg_tool_calls response) = [] /\
         o = Returned (msg_content response) /\
         added = [User message; Assistant (msg_content response)] /\
         sent = [Requested (opening_request env message w)])
     \/
     (exists response tool_calls invoked,
         create (client env) (opening_request env message w) = Returned response /\
         requested (msg_tool_calls response) = tool_calls /\
         tool_calls <> [] /\
         Forall (seen_from
                   ((history_of w ++ [User message]) ++ [calls_message tool_calls]))
                invoked /\
         ((exists e,
              snd (batch env tool_calls) = Some e /\
              o = Raised e /\
              added = [User message; calls_message tool_calls]
                        ++ fst (batch env tool_calls) /\
              sent = Requested (opening_request env message w) :: invoked)
          \/
          (snd (batch env tool_calls) = None /\
           o = match stream_outcome env
                         (closing_request env message w tool_calls) with
               | Returned final => Returned (Some final)
               | Raised e => Raised e
               end /\
           added = [User message; calls_message tool_calls]
                     ++ fst (batch env tool_calls)
                     ++ final_message
                          (stream_outcome env
                             (closing_request env message w tool_calls)) /\
           sent = Requested (opening_request env message w)
                    :: invoked
                    ++ [Requested (closing_request env message w tool_calls)])))).
Proof.
  destruct (create (client env) (opening_request env message w))
    as [response|e] eqn:Hc.
  - destruct (requested (msg_tool_calls response)) as [|tc rest] eqn:Hn.
    + destruct (turn_direct env message w response Hc Hn) as (w' & Hr & Hg).
      do 4 eexists. split; [exact Hr|]. split; [exact Hg|].
      right; left. exists response. done.
    + destruct (turn_tools env message w response (tc :: rest) Hc Hn)
        as (w' & invoked & Hs & H); [done|].
      destruct (snd (batch env (tc :: rest))) as [e|] eqn:Hb;
        destruct H as (Hr & Hg).
      * do 4 eexists. split; [exact Hr|]. split; [exact Hg|].
        right; right. exists response, (tc :: rest), invoked.
        do 4 (split; [done|]). left. exists e. done.
      * do 4 eexists. split; [exact Hr|]. split; [exact Hg|].
        right; right. exists response, (tc :: rest), invoked.
        do 4 (split; [done|]). right. done.
  - destruct (turn_first_call_fails env message w e Hc) as (w' & Hr & Hg).
    do 4 eexists. split; [exact Hr|]. split; [exact Hg|].
    left. exists e. done.
Qed.

(** ** The history in every world of the object *)

Lemma history_at_start env :
  history_of (after (__init__ env) blank)
  = [System (config_system_prompt (config env))].
Proof.
  unfold history_of, deref, after; simpl. apply lookup_total_insert_eq.
Qed.

Lemma batch_tool_messages env tool_calls :
  Forall (fun m => role m = tool) (fst (batch env tool_calls)).
Proof.
  induction tool_calls as [|tc rest IH]; simpl; [constructor|].
  destruct (call_result env tc); [|constructor].
  destruct (batch env rest). simpl in *. by constructor.
Qed.

(** Nothing a turn appends is a system message. *)
Lemma turn_appends_no_system env message w :
  exists added,
    history_of (after (generation_loop env message) w) = history_of w ++ added /\
    Forall (fun m => role m <> system) added.
Proof.
  destruct (turn_cases env message w)
    as (o & w' & added & sent & Hr & (_ & _ & Hh & _) & Hcases).
  unfold after. rewrite Hr. exists added. split; [done|].
  assert (Hb : forall tcs, Forall (fun m => role m <> system) (fst (batch env tcs))).
  { intros tcs. eapply Forall_impl; [apply batch_tool_messages|].
    simpl. by intros m ->. }
  destruct Hcases as [(e & _ & _ & -> & _)
                     |[(response & _ & _ & _ & -> & _)
                      |(response & tcs & invoked & _ & _ & _ & _ &
                        [(e & _ & _ & -> & _)|(_ & _ & -> & _)])]].
  - by repeat constructor.
  - by repeat constructor.
  - apply Forall_app. split; [by repeat constructor|apply Hb].
  - apply Forall_app. split; [by repeat constructor|].
    apply Forall_app. split; [apply Hb|].
    destruct (stream_outcome _ _); by repeat constructor.
Qed.

(** X1. In every world of the object the history starts with the system
    message of the configuration, and holds no other system message. *)
Theorem history_starts_with_system env w :
  reachable env w ->
  exists rest,
    history_of w = System (config_system_prompt (config env)) :: rest /\
    Forall (fun m => role m <> system) rest.
Proof.
  induction 1 as [|w message Hr (rest & Hh & Hf)|w Hr (rest & Hh & Hf)
                 |w t Hr IH].
  - exists []. by rewrite history_at_start.
  - destruct (turn_appends_no_system env message w) as (added & -> & Ha).
    exists (rest ++ added). rewrite Hh. split; [done|]. by apply Forall_app.
  - destruct (clear_keeps_history env w Hr) as (-> & _). eauto.
  - exact IH.
Qed.

Lemma history_starts_with_system_witness :
  exists rest,
    history_of (after (generation_loop mixed_env "Who was she?") (start mixed_env))
    = System "You are a helpful assistant." :: rest /\
    Forall (fun m => role m <> system) rest.
Proof.
  apply (history_starts_with_system mixed_env).
  apply reach_turn, reach_init.
Defined.

(** ** Tool messages answer the calls listed before them *)

Lemma answers_in_order_app_user h : forall pending message rest,
  answers_in_order pending (h ++ User message :: rest)
  = answers_in_order pending h && answers_in_order [] rest.
Proof.
  induction h as [|m h IH]; intros pending message rest; [done|].
  destruct m as [c|c|c|ds|c i]; simpl; try apply IH.
  destruct pending as [|p ps]; [done|].
  by rewrite IH, andb_assoc.
Qed.

Lemma answers_in_order_batch env o : forall tool_calls,
  answers_in_order (map call_id tool_calls)
    (fst (batch env tool_calls) ++ final_message o) = true.
Proof.
  induction tool_calls as [|tc rest IH]; simpl.
  - by destruct o.
  - destruct (call_result env tc) as [result|e]; simpl.
    + destruct (batch env rest) as [ms oe]. simpl in *.
      by rewrite String.eqb_refl, IH.
    + by destruct o.
Qed.

Lemma listed_ids tool_calls :
  map d_id
    (map (fun tool_call =>
            {| d_id := call_id tool_call;
               d_type := call_type tool_call;
               d_function := call_function tool_call |}) tool_calls)
  = map call_id tool_calls.
Proof. by rewrite map_map. Qed.

(** X2. In every world of the object, each tool message of the history
    carries the id of the first call not yet answered of the assistant
    message that listed it: tool messages never come unannounced, out of
    order, or twice for one call. *)
Theorem tool_messages_answer_listed_calls env w :
  reachable env w -> answers_in_order [] (history_of w) = true.
Proof.
  induction 1 as [|w message Hr IH|w Hr IH|w t Hr IH].
  - by rewrite history_at_start.
  - destruct (turn_cases env message w)
      as (o & w' & added & sent & Hrun & (_ & _ & Hh & _) & Hcases).
    unfold after. rewrite Hrun. simpl. rewrite Hh.
    destruct Hcases as [(e & _ & _ & -> & _)
                       |[(response & _ & _ & _ & -> & _)
                        |(response & tcs & invoked & _ & _ & _ & _ &
                          [(e & _ & _ & -> & _)|(_ & _ & -> & _)])]];
      simpl; rewrite answers_in_order_app_user, IH; simpl; try done.
    + rewrite listed_ids.
      rewrite <- (app_nil_r (fst (batch env tcs))).
      apply (answers_in_order_batch env (Raised e)).
    + rewrite listed_ids. apply answers_in_order_batch.
  - by destruct (clear_keeps_history env w Hr) as (-> & _).
  - exact IH.
Qed.

Lemma tool_messages_answer_listed_calls_witness :
  answers_in_order []
    (history_of (after (generation_loop mixed_env "And then?")
                   (after (generation_loop mixed_env "Who was she?")
                      (start mixed_env)))) = true.
Proof.
  apply (tool_messages_answer_listed_calls mixed_env).
  apply reach_turn, reach_turn, reach_init.
Defined.

(** A check that does fail on a history with an unannounced tool
    message. *)
Example unannounced_tool_message :
  answers_in_order [] [System "s"; User "u"; Tool "{}" "call_9"] = false.
Proof. reflexivity. Qed.

(** ** A batch stopped halfway *)

Lemma batch_stopped env e : forall tool_calls,
  snd (batch env tool_calls) = Some e ->
  length (fst (batch env tool_calls)) < length tool_calls /\
  map tool_call_id_of (fst (batch env tool_calls))
  = map (fun tool_call => Some (call_id tool_call))
        (take (length (fst (batch env tool_calls))) tool_calls).
Proof.
  induction tool_calls as [|tc rest IH]; simpl; [done|].
  destruct (call_result env tc) as [result|e']; simpl.
  - destruct (batch env rest) as [ms oe]. simpl in *.
    intros H. destruct (IH H) as (Hl & Hi). split; [lia|]. by rewrite Hi.
  - intros _. split; [lia|done].
Qed.

Lemma unanswered_app_user h : forall pending message rest,
  unanswered pending (h ++ User message :: rest) = unanswered [] rest.
Proof.
  induction h as [|m h IH]; intros pending message rest; [done|].
  destruct m; simpl; apply IH.
Qed.

Lemma unanswered_batch env : forall tool_calls,
  unanswered (map call_id tool_calls) (fst (batch env tool_calls))
  = drop (length (fst (batch env tool_calls))) (map call_id tool_calls).
Proof.
  induction tool_calls as [|tc rest IH]; simpl; [done|].
  destruct (call_result env tc) as [result|e]; simpl; [|done].
  destruct (batch env rest) as [ms oe]. simpl in *. exact IH.
Qed.

(** X3. When a call of the batch raises, the turn raises the same
    exception; the history keeps the assistant message that lists all N
    calls and the tool messages of the calls served before, fewer than N,
    so that the call that raised and the calls after it stay listed and
    unanswered. *)
Theorem stopped_batch_leaves_calls_unanswered env message w response e :
  create (client env) (opening_request env message w) = Returned response ->
  snd (batch env (requested (msg_tool_calls response))) = Some e ->
  let tool_calls := requested (msg_tool_calls response) in
  exists w' answers,
    generation_loop env message w = (Raised e, w') /\
    history_of w'
    = history_of w ++ [User message; calls_message tool_calls] ++ answers /\
    length answers < length tool_calls /\
    map tool_call_id_of answers
    = map (fun tool_call => Some (call_id tool_call))
          (take (length answers) tool_calls) /\
    unanswered [] (history_of w')
    = drop (length answers) (map call_id tool_calls) /\
    unanswered [] (history_of w') <> [].
Proof.
  intros Hc Hb tool_calls.
  assert (Hne : tool_calls <> []).
  { intros Heq. subst tool_calls. by rewrite Heq in Hb. }
  destruct (turn_tools env message w response tool_calls Hc eq_refl Hne)
    as (w' & invoked & _ & H).
  fold tool_calls in Hb. rewrite Hb in H. destruct H as (Hr & _ & _ & Hh & _).
  destruct (batch_stopped env e tool_calls Hb) as (Hl & Hi).
  exists w', (fst (batch env tool_calls)).
  split; [done|]. split; [done|]. split; [done|]. split; [done|].
  assert (Hu : unanswered [] (history_of w')
               = drop (length (fst (batch env tool_calls)))
                      (map call_id tool_calls)).
  { rewrite Hh. simpl. rewrite unanswered_app_user. simpl.
    rewrite listed_ids. apply unanswered_batch. }
  split; [done|]. rewrite Hu. intros Hd.
  apply (f_equal length) in Hd. rewrite length_drop, length_map in Hd.
  simpl in Hd. lia.
Qed.

Lemma stopped_batch_leaves_calls_unanswered_witness :
  exists w' answers,
    generation_loop halfway_env "What time is it?" (start halfway_env)
    = (Raised (KeyError "wikipedia_query"), w') /\
    history_of w'
    = history_of (start halfway_env)
        ++ [User "What time is it?"; calls_message halfway_calls] ++ answers /\
    length answers < 3 /\
    unanswered [] (history_of w') = drop (length answers) ["call_1"; "call_2"; "call_3"].
Proof.
  destruct (stopped_batch_leaves_calls_unanswered halfway_env "What time is it?"
              (start halfway_env)
              {| msg_content := None; msg_tool_calls := Some halfway_calls |}
              (KeyError "wikipedia_query"))
    as (w' & answers & Hr & Hh & Hl & _ & Hu & _); [reflexivity..|].
  exists w', answers. done.
Defined.

(** The batch stopped halfway, run. *)
Example halfway_scenario :
  let r := generation_loop halfway_env "What time is it?" (start halfway_env) in
  fst r = Raised (KeyError "wikipedia_query") /\
  map role (history_of (snd r)) = [system; user; assistant; tool] /\
  unanswered [] (history_of (snd r)) = ["call_2"; "call_3"].
Proof. vm_compute. done. Qed.

(** ** The requests the program sends *)

Lemma reachable_model env w :
  reachable env w -> model (ai_chat w) = model_name (config env).
Proof.
  induction 1 as [|w message Hr IH|w Hr IH|w t Hr IH]; try done.
  destruct (turn_grows env message w) as (more & sent & (-> & _)). done.
Qed.

Lemma seen_from_well_formed env h invoked :
  Forall (seen_from h) invoked -> Forall (well_formed_event env) invoked.
Proof.
  intros H. eapply Forall_impl; [exact H|]. by intros [r|name seen].
Qed.

Lemma head_app_cons {A} (x : A) l l' : head ((x :: l) ++ l') = Some x.
Proof. done. Qed.

(** X4. Every request the object has sent names the configured model and
    starts with the system message; a request that is not streamed carries
    the tool schema and a temperature, a streamed one carries neither. *)
Theorem requests_well_formed env w :
  reachable env w -> Forall (well_formed_event env) (trace w).
Proof.
  induction 1 as [|w message Hr IH|w Hr IH|w t Hr IH];
    [constructor| |exact IH|exact IH].
  - pose proof (reachable_model env w Hr) as Hm.
    destruct (history_starts_with_system env w Hr) as (rest & Hh & _).
    destruct (turn_cases env message w)
      as (o & w' & added & sent & Hrun & (_ & _ & _ & Ht) & Hcases).
    unfold after. rewrite Hrun. simpl. rewrite Ht.
    apply Forall_app. split; [done|].
    assert (H1 : well_formed_request env (opening_request env message w)).
    { split; [exact Hm|]. split.
      - simpl. rewrite Hh. apply head_app_cons.
      - left. simpl. eauto. }
    assert (H2 : forall tcs,
               well_formed_request env (closing_request env message w tcs)).
    { intros tcs. split; [exact Hm|]. split.
      - simpl. rewrite Hh, <- !app_assoc. apply head_app_cons.
      - right. done. }
    destruct Hcases as [(e & _ & _ & _ & ->)
                       |[(response & _ & _ & _ & _ & ->)
                        |(response & tcs & invoked & _ & _ & _ & Hs &
                          [(e & _ & _ & _ & ->)|(_ & _ & _ & ->)])]].
    + constructor; [exact H1|constructor].
    + constructor; [exact H1|constructor].
    + constructor; [exact H1|]. by eapply seen_from_well_formed.
    + constructor; [exact H1|]. apply Forall_app. split.
      * by eapply seen_from_well_formed.
      * constructor; [apply H2|constructor].
Qed.

Lemma requests_well_formed_witness :
  Forall (well_formed_event mixed_env)
    (trace (after (generation_loop mixed_env "Who was she?")
              (after (set_temperature (3 # 10)) (start mixed_env)))).
Proof.
  apply (requests_well_formed mixed_env).
  apply reach_turn, reach_temperature, reach_init.
Defined.

(** ** The stream, cut in chunks *)

Lemma consume_app s1 : forall s2 ai_output,
  consume (s1 ++ s2) ai_output
  = match consume s1 ai_output with
    | Returned so_far => consume s2 so_far
    | Raised e => Raised e
    end.
Proof.
  induction s1 as [|[[c|]|e] rest IH]; intros s2 acc; simpl; try done.
  destruct (String.eqb c ""); apply IH.
Qed.

Lemma consume_whole stream_response : forall ai_output,
  Forall is_chunk stream_response ->
  consume stream_response ai_output
  = Returned (ai_output +:+ join (fragments stream_response)).
Proof.
  induction stream_response as [|[[c|]|e] rest IH]; intros acc H; simpl.
  - by rewrite append_empty_r.
  - apply Forall_cons in H as [_ H].
    destruct (String.eqb c "") eqn:E.
    + apply String.eqb_eq in E as ->. by apply IH.
    + rewrite IH by done. by rewrite append_assoc.
  - apply Forall_cons in H as [_ H]. by apply IH.
  - by apply Forall_cons in H as [[] _].
Qed.

(** X5. The text of a streamed answer does not depend on how the stream
    is cut into chunks: two streams that arrive whole and whose fragments
    concatenate to the same text give the same answer, empty and missing
    fragments included. *)
Theorem answer_independent_of_chunking s1 s2 :
  Forall is_chunk s1 ->
  Forall is_chunk s2 ->
  join (fragments s1) = join (fragments s2) ->
  consume s1 "" = consume s2 "" /\
  consume s1 "" = Returned (join (fragments s1)).
Proof.
  intros H1 H2 Heq.
  rewrite (consume_whole s1 "" H1), (consume_whole s2 "" H2), Heq. done.
Qed.

Lemma answer_independent_of_chunking_witness :
  consume mixed_stream "" = consume coarse_stream "" /\
  consume mixed_stream "" = Returned "Ada Lovelace wrote programs.".
Proof.
  apply (answer_independent_of_chunking mixed_stream coarse_stream);
    [repeat constructor | repeat constructor | reflexivity].
Defined.

(** X6. A stream that breaks gives no text at all: whatever arrived
    before the break is dropped and the exception of the break is raised,
    and no chunk after the break is looked at. *)
Theorem broken_stream_drops_text s1 e s2 ai_output :
  Forall is_chunk s1 ->
  consume (s1 ++ Broken e :: s2) ai_output = Raised e.
Proof.
  intros H. rewrite consume_app, (consume_whole s1 _ H). done.
Qed.

Lemma broken_stream_drops_text_witness :
  consume ([Chunk (Some "It is "); Chunk (Some "almost ")]
             ++ Broken refused :: [Chunk (Some "noon.")]) ""
  = Raised refused.
Proof.
  apply (broken_stream_drops_text
           [Chunk (Some "It is "); Chunk (Some "almost ")] refused
           [Chunk (Some "noon.")] "").
  repeat constructor.
Defined.

(** ** Arguments that are JSON but no object *)

(** X7. Arguments that parse to a JSON value other than an object are not
    replaced by the empty dict: for a tool that reads an argument the
    subscript raises [TypeError], which stops the batch with nothing
    appended. *)
Theorem non_object_arguments_raise_type_error env tool_call rest w key v :
  required_argument (fn_name (call_function tool_call)) = Some key ->
  loads env (fn_arguments (call_function tool_call)) = Returned v ->
  (forall d, v <> JObject d) ->
  parse_arguments env tool_call = v /\
  _process_tool_calls env (tool_call :: rest) w = (Raised TypeError, w).
Proof.
  intros Hk Hl Hv.
  assert (Hp : parse_arguments env tool_call = v)
    by (unfold parse_arguments; by rewrite Hl).
  split; [done|].
  apply (process_raises env tool_call rest key); [done|]. rewrite Hp.
  destruct v; try done. by destruct (Hv members).
Qed.

Lemma non_object_arguments_raise_type_error_witness :
  parse_arguments array_env
    (call "call_1" "fetch_wikipedia_information"
       ("[" +:+ quoted "Ada Lovelace" +:+ "]"))
  = JArray [JString "Ada Lovelace"] /\
  _process_tool_calls array_env array_calls (start array_env)
  = (Raised TypeError, start array_env).
Proof.
  apply (non_object_arguments_raise_type_error array_env
           (call "call_1" "fetch_wikipedia_information"
              ("[" +:+ quoted "Ada Lovelace" +:+ "]"))
           [] (start array_env) "wikipedia_query");
    [reflexivity | reflexivity | discriminate].
Defined.

(** * The application, run by run *)

(** ** The object a run builds *)

Lemma init_run env w :
  exists w0,
    __init__ env w = (Returned tt, w0) /\
    history_of w0 = [System (config_system_prompt (config env))] /\
    model (ai_chat w0) = model_name (config env) /\
    messages w0 = messages w /\
    trace w0 = trace w.
Proof.
  eexists. split; [reflexivity|].
  unfold history_of, deref; simpl.
  split; [apply lookup_total_insert_eq|done].
Qed.

Lemma batch_not_visible env tool_calls :
  visible (fst (batch env tool_calls)) = [].
Proof.
  induction tool_calls as [|tc rest IH]; simpl; [done|].
  destruct (call_result env tc); [|done].
  destruct (batch env rest). simpl in *. exact IH.
Qed.

(** What a turn adds to the history, as the chat window would show it. *)
Lemma turn_visible env message w :
  exists o w' added sent,
    generation_loop env message w = (o, w') /\
    grows w w' added sent /\
    visible added
    = User message :: match o with
                      | Returned response => [Assistant response]
                      | Raised _ => []
                      end /\
    exists rest, sent = Requested (opening_request env message w) :: rest.
Proof.
  destruct (turn_cases env message w)
    as (o & w' & added & sent & Hr & Hg & Hcases).
  exists o, w', added, sent. split; [exact Hr|]. split; [exact Hg|].
  destruct Hcases as [(e & _ & -> & -> & ->)
                     |[(response & _ & _ & -> & -> & ->)
                      |(response & tcs & invoked & _ & _ & _ & _ &
                        [(e & _ & -> & -> & ->)|(_ & -> & -> & ->)])]].
  - split; [done|]. by eexists.
  - split; [done|]. by eexists.
  - split; [|by eexists].
    change (User message :: visible (fst (batch env tcs)) = [User message]).
    by rewrite batch_not_visible.
  - split; [|by eexists].
    change (User message
            :: visible (fst (batch env tcs) ++ final_message
                 (stream_outcome env (closing_request env message w tcs)))
            = User message
              :: match match stream_outcome env
                               (closing_request env message w tcs) with
                       | Returned final => Returned (Some final)
                       | Raised e => Raised e
                       end with
                 | Returned response => [Assistant response]
                 | Raised _ => []
                 end).
    unfold visible. rewrite filter_app.
    change (filter shown (fst (batch env tcs))) with (visible (fst (batch env tcs))).
    rewrite batch_not_visible.
    by destruct (stream_outcome _ _).
Qed.

(** A run in which the user sent a message. *)
Lemma chat_run env i w user_input :
  button i = false ->
  chat_input i = Some user_input ->
  user_input <> "" ->
  exists w1 o w3 added sent,
    history_of w1 = [System (config_system_prompt (config env))] /\
    opening_request env user_input w1
    = {| req_model := model_name (config env);
         req_messages := [System (config_system_prompt (config env));
                          User user_input];
         req_tools := Some (ai_tools (tools env));
         req_temperature := Some (slider i);
         req_stream := false |} /\
    messages w1 = messages w ++ [User user_input] /\
    trace w1 = trace w /\
    generation_loop env user_input w1 = (o, w3) /\
    grows w1 w3 added sent /\
    visible added
    = User user_input :: match o with
                         | Returned response => [Assistant response]
                         | Raised _ => []
                         end /\
    (exists rest, sent = Requested (opening_request env user_input w1) :: rest) /\
    GUI env i w
    = match o with
      | Returned response =>
          (Raised RerunException,
           set_messages (messages w3 ++ [Assistant response]) w3)
      | Raised e => (Raised e, w3)
      end.
Proof.
  intros Hb Hc Hne.
  destruct (init_run env w) as (w0 & Hi & Hh0 & Hm0 & Hs0 & Ht0).
  set (w1 := set_messages (messages w0 ++ [User user_input])
               (after (set_temperature (slider i)) w0)).
  destruct (turn_visible env user_input w1)
    as (o & w3 & added & sent & Hr & Hg & Hv & Hsent).
  exists w1, o, w3, added, sent.
  assert (Hh1 : history_of w1 = [System (config_system_prompt (config env))])
    by exact Hh0.
  split; [exact Hh1|].
  split.
  { unfold opening_request, first_request. rewrite Hh1.
    subst w1; unfold after; simpl. by rewrite Hm0. }
  split; [subst w1; simpl; by rewrite Hs0|].
  split; [subst w1; simpl; exact Ht0|].
  split; [exact Hr|]. split; [exact Hg|]. split; [exact Hv|].
  split; [exact Hsent|].
  unfold GUI, _initialize_app, _initialize_session_state.
  unfold bind at 1. unfold ret at 1. unfold bind at 1. rewrite Hi.
  unfold _render_interface, _render_sidebar. rewrite Hb.
  unfold bind at 1. unfold bind at 1. unfold ret at 1. unfold ret at 1.
  unfold bind at 1. unfold set_temperature at 1.
  unfold _render_main_container, _handle_user_input. rewrite Hc.
  destruct (String.eqb_spec user_input "") as [->|_]; [done|].
  unfold _process_chat_response.
  unfold bind at 1. unfold session_append at 1.
  unfold bind at 1.
  change (generation_loop env user_input _) with (generation_loop env user_input w1).
  rewrite Hr. destruct o as [response|e]; [|done].
  reflexivity.
Qed.

(** A run in which the user pressed the button. *)
Lemma clear_run env i w :
  button i = true ->
  exists w',
    GUI env i w = (Raised RerunException, w') /\
    messages w' = [] /\
    trace w' = trace w.
Proof.
  intros Hb.
  destruct (init_run env w) as (w0 & Hi & _ & _ & _ & Ht0).
  eexists. split; [|split].
  - unfold GUI, _initialize_app, _initialize_session_state.
    unfold bind at 1. unfold ret at 1. unfold bind at 1. rewrite Hi.
    unfold _render_interface, _render_sidebar. rewrite Hb.
    reflexivity.
  - reflexivity.
  - exact Ht0.
Qed.

(** A run in which the user did neither. *)
Lemma quiet_run env i w :
  button i = false ->
  chat_input i = None \/ chat_input i = Some "" ->
  exists w',
    GUI env i w = (Returned tt, w') /\
    messages w' = messages w /\
    trace w' = trace w.
Proof.
  intros Hb Hc.
  destruct (init_run env w) as (w0 & Hi & _ & _ & Hs0 & Ht0).
  eexists. split; [|split].
  - unfold GUI, _initialize_app, _initialize_session_state.
    unfold bind at 1. unfold ret at 1. unfold bind at 1. rewrite Hi.
    unfold _render_interface, _render_sidebar. rewrite Hb.
    unfold _render_main_container, _handle_user_input.
    destruct Hc as [-> | ->]; reflexivity.
  - exact Hs0.
  - exact Ht0.
Qed.

Lemma paired_app_bounded n : forall l tl,
  length l <= n ->
  paired l = true ->
  paired tl = true ->
  (forall response r, tl <> Assistant response :: r) ->
  paired (l ++ tl) = true.
Proof.
  induction n as [|n IH]; intros l tl Hn Hl Htl Hhd.
  - destruct l; [done|simpl in Hn; lia].
  - destruct l as [|x r]; [done|].
    destruct x as [c|u|o|ds|c id]; try done.
    destruct r as [|y r'].
    + simpl. destruct tl as [|[c|u'|o|ds|c id] tl']; try done.
    + destruct y as [c|u'|o|ds|c id]; try done.
      * change (paired (User u' :: r' ++ tl) = true).
        apply (IH (User u' :: r') tl); [simpl in *; lia|done|done|done].
      * change (paired (r' ++ tl) = true).
        apply IH; [simpl in *; lia|done|done|done].
Qed.

Lemma paired_app l tl :
  paired l = true ->
  paired tl = true ->
  (forall response r, tl <> Assistant response :: r) ->
  paired (l ++ tl) = true.
Proof. by apply (paired_app_bounded (length l)). Qed.

(** ** What a run sends, and what it logs *)

(** X8. A run in which the user sends a message opens with a request that
    carries the system message and that message alone, whatever the session
    log holds: the run has built its own [Ai_Management], so nothing of the
    earlier exchanges reaches the model. *)
Theorem run_sends_fresh_conversation env i w user_input :
  button i = false ->
  chat_input i = Some user_input ->
  user_input <> "" ->
  exists rest,
    trace (after (GUI env i) w)
    = trace w
      ++ Requested
           {| req_model := model_name (config env);
              req_messages := [System (config_system_prompt (config env));
                               User user_input];
              req_tools := Some (ai_tools (tools env));
              req_temperature := Some (slider i);
              req_stream := false |}
         :: rest.
Proof.
  intros Hb Hc Hne.
  destruct (chat_run env i w user_input Hb Hc Hne)
    as (w1 & o & w3 & added & sent & _ & Hreq & _ & Ht1 & _ &
        (_ & _ & _ & Ht3) & _ & (rest & ->) & Hrun).
  exists rest. unfold after. rewrite Hrun.
  rewrite <- Hreq, <- Ht1, <- Ht3. by destruct o.
Qed.

Lemma run_sends_fresh_conversation_witness :
  exists rest,
    trace (after (GUI hello_env (says "And again?"))
             (after (GUI hello_env (says "Hello")) blank))
    = trace (after (GUI hello_env (says "Hello")) blank)
      ++ Requested
           {| req_model := model_name (config hello_env);
              req_messages := [System (config_system_prompt (config hello_env));
                               User "And again?"];
              req_tools := Some (ai_tools (tools hello_env));
              req_temperature := Some (7 # 10);
              req_stream := false |}
         :: rest.
Proof.
  apply (run_sends_fresh_conversation hello_env (says "And again?"));
    [reflexivity|reflexivity|discriminate].
Defined.

(** X9. A run in which the user sends a message ends by raising, and adds
    to the session log what the chat window shows of the run's history: the
    user's message, followed by the assistant's answer when the turn
    returned and the run ended with the rerun. The assistant message that
    lists tool calls and the tool messages are never logged. *)
Theorem run_logs_visible_history env i w user_input :
  button i = false ->
  chat_input i = Some user_input ->
  user_input <> "" ->
  messages (after (GUI env i) w)
  = messages w ++ visible (history_of (after (GUI env i) w)) /\
  ((exists response,
       fst (GUI env i w) = Raised RerunException /\
       visible (history_of (after (GUI env i) w))
       = [User user_input; Assistant response])
   \/
   (exists e,
       fst (GUI env i w) = Raised e /\
       visible (history_of (after (GUI env i) w)) = [User user_input])).
Proof.
  intros Hb Hc Hne.
  destruct (chat_run env i w user_input Hb Hc Hne)
    as (w1 & o & w3 & added & sent & Hh1 & _ & Hm1 & _ & _ &
        (_ & Hm3 & Hh3 & _) & Hv & _ & Hrun).
  assert (Hvis : visible (history_of w3) = visible added).
  { rewrite Hh3, Hh1. reflexivity. }
  unfold after. rewrite Hrun. destruct o as [response|e].
  - cbn [fst snd].
    change (history_of (set_messages (messages w3 ++ [Assistant response]) w3))
      with (history_of w3).
    change (messages (set_messages (messages w3 ++ [Assistant response]) w3))
      with (messages w3 ++ [Assistant response]).
    rewrite Hvis, Hv, Hm3, Hm1, <- app_assoc.
    split; [done|]. left. by exists response.
  - cbn [fst snd]. rewrite Hvis, Hv, Hm3, Hm1.
    split; [done|]. right. by exists e.
Qed.

Lemma run_logs_visible_history_witness :
  messages (after (GUI time_env (says "What time is it?")) blank)
  = messages blank
    ++ visible (history_of (after (GUI time_env (says "What time is it?")) blank)) /\
  ((exists response,
       fst (GUI time_env (says "What time is it?") blank) = Raised RerunException /\
       visible (history_of (after (GUI time_env (says "What time is it?")) blank))
       = [User "What time is it?"; Assistant response])
   \/
   (exists e,
       fst (GUI time_env (says "What time is it?") blank) = Raised e /\
       visible (history_of (after (GUI time_env (says "What time is it?")) blank))
       = [User "What time is it?"])).
Proof.
  apply (run_logs_visible_history time_env (says "What time is it?"));
    [reflexivity|reflexivity|discriminate].
Defined.

(** The run of [time_env]: three tool-related messages in the history,
    two entries in the log. *)
Example time_run :
  length (history_of (after (GUI time_env (says "What time is it?")) blank)) = 5%nat /\
  messages (after (GUI time_env (says "What time is it?")) blank)
  = [User "What time is it?"; Assistant (Some "It is noon.")].
Proof. split; vm_compute; reflexivity. Qed.

(** X10. Throughout a browser session the session log holds only entries
    of the user and of the assistant, and every entry of the assistant comes
    directly after an entry of the user: a failed turn leaves a question
    without an answer, never an answer without its question. *)
Theorem session_log_paired env w :
  session env w -> paired (messages w) = true.
Proof.
  induction 1 as [|w i _ IH]; [done|].
  destruct (button i) eqn:Hb.
  - destruct (clear_run env i w Hb) as (w' & Hr & Hm & _).
    unfold after. rewrite Hr. cbn [snd]. by rewrite Hm.
  - destruct (chat_input i) as [user_input|] eqn:Hc.
    + destruct (String.eqb_spec user_input "") as [->|Hne].
      * destruct (quiet_run env i w Hb (or_intror Hc)) as (w' & Hr & Hm & _).
        unfold after. rewrite Hr. cbn [snd]. by rewrite Hm.
      * destruct (chat_run env i w user_input Hb Hc Hne)
          as (w1 & o & w3 & added & sent & _ & _ & Hm1 & _ & _ &
              (_ & Hm3 & _ & _) & _ & _ & Hrun).
        unfold after. rewrite Hrun. destruct o as [response|e]; cbn [snd].
        -- change (paired (messages w3 ++ [Assistant response]) = true).
           rewrite Hm3, Hm1, <- app_assoc. by apply paired_app.
        -- rewrite Hm3, Hm1. by apply paired_app.
    + destruct (quiet_run env i w Hb (or_introl Hc)) as (w' & Hr & Hm & _).
      unfold after. rewrite Hr. cbn [snd]. by rewrite Hm.
Qed.

Lemma session_log_paired_witness :
  paired (messages (after (GUI hello_env (says "And again?"))
                      (after (GUI hello_env (says "Hello")) blank))) = true.
Proof.
  apply (session_log_paired hello_env).
  apply session_run, session_run, session_start.
Defined.

(** X11. A run in which the button was pressed ends with the rerun, leaves
    the session log empty and sends nothing, also when a message was typed:
    the script never reaches the chat input. *)
Theorem clear_run_sends_nothing env i w :
  button i = true ->
  fst (GUI env i w) = Raised RerunException /\
  messages (after (GUI env i) w) = [] /\
  trace (after (GUI env i) w) = trace w.
Proof.
  intros Hb. destruct (clear_run env i w Hb) as (w' & Hr & Hm & Ht).
  unfold after. by rewrite Hr.
Qed.

Lemma clear_run_sends_nothing_witness :
  fst (GUI hello_env presses_clear (after (GUI hello_env (says "Hello")) blank))
  = Raised RerunException /\
  messages (after (GUI hello_env presses_clear)
              (after (GUI hello_env (says "Hello")) blank)) = [] /\
  trace (after (GUI hello_env presses_clear)
           (after (GUI hello_env (says "Hello")) blank))
  = trace (after (GUI hello_env (says "Hello")) blank).
Proof.
  apply (clear_run_sends_nothing hello_env presses_clear). reflexivity.
Defined.

(** * The tools *)

(** ** Splitting a text into sentences *)

Lemma split_from_nonempty st text : Tools.split_from st text <> [].
Proof.
  revert st. induction text as [|c r IH]; intros st; [done|].
  simpl. destruct (ch_eq c " ").
  - destruct st; [|done|apply IH].
    specialize (IH Tools.Plain).
    by destruct (Tools.split_from Tools.Plain r).
  - specialize (IH (if Tools.is_stop c then Tools.AfterStop else Tools.Plain)).
    by destruct (Tools.split_from _ r).
Qed.

Lemma space_is_no_stop c : Tools.isspace c = true -> Tools.is_stop c = false.
Proof.
  destruct c as [[] [] [] [] [] [] [] []]; vm_compute; congruence.
Qed.

Lemma isspace_space c : ch_eq c " " = true -> Tools.isspace c = true.
Proof.
  unfold ch_eq. intros H. apply Ascii.eqb_eq in H. by subst c.
Qed.

Lemma is_blank_cons c r :
  Tools.is_blank (String c r) = Tools.isspace c && Tools.is_blank r.
Proof. reflexivity. Qed.

Lemma is_blank_app a b :
  Tools.is_blank (a +:+ b) = Tools.is_blank a && Tools.is_blank b.
Proof.
  unfold Tools.is_blank. rewrite chars_app. apply forallb_app.
Qed.

Lemma split_blank text :
  Tools.is_blank text = true -> Tools.split_from Tools.Plain text = [text].
Proof.
  induction text as [|c r IH]; [done|].
  rewrite is_blank_cons. intros [Hc Hr]%andb_true_iff.
  simpl. rewrite (space_is_no_stop c Hc), (IH Hr).
  by destruct (ch_eq c " ").
Qed.

Lemma rstrip_blank s : Tools.is_blank s = true -> Tools.rstrip s = "".
Proof.
  induction s as [|c r IH]; [done|].
  rewrite is_blank_cons. intros [Hc Hr]%andb_true_iff.
  simpl. by rewrite (IH Hr), Hc.
Qed.

Lemma strip_blank s : Tools.is_blank s = true -> Tools.strip s = "".
Proof. intros H. unfold Tools.strip. by rewrite (rstrip_blank s H). Qed.

Lemma join_blank l :
  forallb Tools.is_blank l = true -> Tools.is_blank (Tools.str_join " " l) = true.
Proof.
  induction l as [|x r IH]; [done|].
  simpl. intros [Hx Hr]%andb_true_iff.
  destruct r as [|y r']; [done|].
  rewrite !is_blank_app, Hx, (IH Hr). done.
Qed.

Lemma slice_to_split {A} n (l : list A) :
  exists dropped, l = Tools.slice_to n l ++ dropped.
Proof.
  unfold Tools.slice_to. destruct (0 <=? n)%Z; eexists; symmetry; apply take_drop.
Qed.

(** ** What a summary is made of *)

Lemma solid_cons c r :
  Tools.solid (String c r)
  = (if Tools.isspace c then [] else [c]) ++ Tools.solid r.
Proof.
  unfold Tools.solid. simpl. by destruct (Tools.isspace c).
Qed.

Lemma solid_app a b : Tools.solid (a +:+ b) = Tools.solid a ++ Tools.solid b.
Proof.
  unfold Tools.solid. rewrite chars_app. apply List.filter_app.
Qed.

Lemma solid_join l :
  Tools.solid (Tools.str_join " " l) = concat (map Tools.solid l).
Proof.
  induction l as [|x r IH]; [done|].
  destruct r as [|y r'].
  - simpl. by rewrite app_nil_r.
  - change (Tools.solid (x +:+ " " +:+ Tools.str_join " " (y :: r'))
            = Tools.solid x ++ concat (map Tools.solid (y :: r'))).
    by rewrite !solid_app, IH.
Qed.

Lemma solid_push c pieces :
  concat (map Tools.solid (Tools.push c pieces))
  = (if Tools.isspace c then [] else [c]) ++ concat (map Tools.solid pieces).
Proof.
  destruct pieces as [|piece rest].
  - change (Tools.solid (String c "") ++ []
            = (if Tools.isspace c then [] else [c]) ++ []).
    rewrite solid_cons. by destruct (Tools.isspace c).
  - change (Tools.solid (String c piece) ++ concat (map Tools.solid rest)
            = (if Tools.isspace c then [] else [c])
              ++ Tools.solid piece ++ concat (map Tools.solid rest)).
    by rewrite solid_cons, app_assoc.
Qed.

Lemma solid_split st text :
  concat (map Tools.solid (Tools.split_from st text)) = Tools.solid text.
Proof.
  revert st. induction text as [|c r IH]; intros st; [done|].
  rewrite solid_cons. simpl. destruct (ch_eq c " ") eqn:Hc.
  - rewrite (isspace_space c Hc).
    destruct st; [|simpl; apply IH|apply IH].
    rewrite solid_push, IH. by rewrite (isspace_space c Hc).
  - by rewrite solid_push, IH.
Qed.

Lemma solid_lstrip s : Tools.solid (Tools.lstrip s) = Tools.solid s.
Proof.
  induction s as [|c r IH]; [done|].
  simpl. destruct (Tools.isspace c) eqn:Hc; [|done].
  by rewrite solid_cons, Hc.
Qed.

Lemma solid_rstrip s : Tools.solid (Tools.rstrip s) = Tools.solid s.
Proof.
  induction s as [|c r IH]; [done|].
  rewrite solid_cons, <- IH. simpl.
  destruct (Tools.rstrip r) as [|c' r'].
  - destruct (Tools.isspace c) eqn:Hc; [done|].
    unfold str1. by rewrite solid_cons, Hc.
  - by rewrite solid_cons.
Qed.

Lemma solid_strip s : Tools.solid (Tools.strip s) = Tools.solid s.
Proof. unfold Tools.strip. by rewrite solid_lstrip, solid_rstrip. Qed.

(** X12. A page that loads and has no text in its paragraphs (no
    paragraph at all, or white space only) is summarised as the empty
    string, whatever the number of sentences asked for; the text
    [No content found.] is not what comes back. *)
Theorem blank_page_gives_empty_summary p url paras :
  Tools.paragraphs p url = Tools.Got paras ->
  forallb Tools.is_blank paras = true ->
  Tools._get_and_summarize_content p url = "".
Proof.
  intros Hp Hb. unfold Tools._get_and_summarize_content. rewrite Hp.
  pose proof (join_blank paras Hb) as Ht.
  unfold Tools.split_sentences. rewrite (split_blank _ Ht).
  apply strip_blank.
  unfold Tools.slice_to.
  destruct (0 <=? Tools.num_sentences p)%Z.
  - destruct (Z.to_nat (Tools.num_sentences p)) as [|n]; [done|].
    change (take (S n) [Tools.str_join " " paras])
      with (Tools.str_join " " paras :: take n []).
    rewrite take_nil. exact Ht.
  - destruct (Z.to_nat _) as [|n]; [done|].
    change (take (S n) [Tools.str_join " " paras])
      with (Tools.str_join " " paras :: take n []).
    rewrite take_nil. exact Ht.
Qed.

Lemma blank_page_gives_empty_summary_witness :
  Tools._get_and_summarize_content empty_web "http://a" = "".
Proof.
  apply (blank_page_gives_empty_summary empty_web "http://a" [" "; ""]);
    reflexivity.
Defined.

(** The branch that returns [No content found.] is never taken: the list
    of sentences has at least one piece. *)
Lemma summary_of_loaded_page p url paras :
  Tools.paragraphs p url = Tools.Got paras ->
  Tools._get_and_summarize_content p url
  = Tools.strip
      (Tools.str_join " "
         (Tools.slice_to (Tools.num_sentences p)
            (Tools.split_sentences (Tools.str_join " " paras)))).
Proof.
  intros Hp. unfold Tools._get_and_summarize_content. rewrite Hp.
  unfold Tools.split_sentences.
  pose proof (split_from_nonempty Tools.Plain (Tools.str_join " " paras)).
  by destruct (Tools.split_from Tools.Plain (Tools.str_join " " paras)).
Qed.

(** X13. The summary of a page that loads is cut out of the page's text:
    its characters other than white space are the first such characters of
    the text, in the same order. Nothing is added, reordered or skipped,
    for every number of sentences asked for, negative ones included. *)
Theorem summary_is_cut_from_text p url paras :
  Tools.paragraphs p url = Tools.Got paras ->
  Tools.solid (Tools._get_and_summarize_content p url)
  `prefix_of` Tools.solid (Tools.str_join " " paras).
Proof.
  intros Hp. rewrite (summary_of_loaded_page p url paras Hp).
  rewrite solid_strip, solid_join.
  rewrite <- (solid_split Tools.Plain (Tools.str_join " " paras)).
  fold (Tools.split_sentences (Tools.str_join " " paras)).
  destruct (slice_to_split (Tools.num_sentences p)
              (Tools.split_sentences (Tools.str_join " " paras)))
    as (dropped & Hd).
  rewrite Hd at 2. rewrite map_app, concat_app. by eexists.
Qed.

Lemma summary_is_cut_from_text_witness :
  Tools.solid (Tools._get_and_summarize_content small_web "http://a")
  `prefix_of`
  Tools.solid (Tools.str_join " " ["Ada wrote notes.  She was first!"; " Was she? Yes."]).
Proof.
  apply (summary_is_cut_from_text small_web "http://a"). reflexivity.
Defined.

(** The page of [small_web], cut after two sentences. *)
Example small_web_summary :
  Tools.split_sentences "Ada wrote notes.  She was first!  Was she? Yes."
  = ["Ada wrote notes."; "She was first!"; "Was she?"; "Yes."] /\
  Tools._get_and_summarize_content small_web "http://a"
  = "Ada wrote notes. She was first!".
Proof. split; reflexivity. Qed.

(** ** The two searches *)

Lemma pages_loop_acc p pages : forall i acc,
  Tools.pages_loop p i pages acc = acc +:+ Tools.pages_loop p i pages "".
Proof.
  induction pages as [|x r IH]; intros i acc; simpl.
  - by rewrite append_empty_r.
  - rewrite (IH (S i) (acc +:+ _)), (IH (S i) ("" +:+ _)).
    by rewrite append_assoc.
Qed.

Lemma page_block_head p i page_name :
  exists c s,
    Tools.page_block p i page_name = String c s /\
    (c = "P"%char \/ c = "E"%char).
Proof.
  unfold Tools.page_block.
  destruct (Tools.wikipedia_page p page_name); do 2 eexists;
    (split; [reflexivity|]); auto.
Qed.

(** X14. When the Wikipedia search answers, the tool returns
    [No Wikipedia results found.] exactly when the search found no page.
    When it found one, the result starts with what the first page adds:
    its block, numbered 1, or, if the page could not be loaded, the line
    [Error processing page] with the page's name and the text of the
    exception. *)
Theorem no_results_text_iff_no_pages p wikipedia_query pages :
  Tools.wikipedia_search p wikipedia_query = Tools.Got pages ->
  (Tools.fetch_wikipedia_information p wikipedia_query
   = "No Wikipedia results found."
   <-> pages = []) /\
  (forall page_name rest,
      pages = page_name :: rest ->
      exists more,
        Tools.fetch_wikipedia_information p wikipedia_query
        = match Tools.wikipedia_page p page_name with
          | Tools.Got page =>
              "Page 1 - Title: " +:+ Tools.title page +:+ Tools.nl
              +:+ "URL: " +:+ Tools.url page +:+ Tools.nl
              +:+ " - Summary: " +:+ Tools.summary page
              +:+ Tools.nl +:+ Tools.nl
          | Tools.Failed e =>
              "Error processing page " +:+ page_name +:+ ": " +:+ e
              +:+ Tools.nl +:+ Tools.nl
          end +:+ more).
Proof.
  intros Hs. unfold Tools.fetch_wikipedia_information. rewrite Hs.
  unfold Tools._process_wikipedia_pages.
  destruct pages as [|x r].
  { split; [done|]. by intros page_name rest. }
  change (take 3 (x :: r)) with (x :: take 2 r).
  simpl Tools.pages_loop. rewrite pages_loop_acc.
  destruct (page_block_head p 0 x) as (c & s & Hb & Hc).
  change ("" +:+ Tools.page_block p 0 x) with (Tools.page_block p 0 x).
  assert (Hne : String.eqb (Tools.page_block p 0 x
                              +:+ Tools.pages_loop p 1 (take 2 r) "") ""
                = false) by (by rewrite Hb).
  rewrite Hne. split.
  - split; [|done]. rewrite Hb. intros H.
    injection H as H _. by destruct Hc as [-> | ->].
  - intros page_name rest [= <- <-].
    exists (Tools.pages_loop p 1 (take 2 r) "").
    unfold Tools.page_block.
    by destruct (Tools.wikipedia_page p x).
Qed.

Lemma no_results_text_iff_no_pages_witness :
  (Tools.fetch_wikipedia_information small_web (JString "Ada")
   = "No Wikipedia results found."
   <-> ["Ada Lovelace"; "Ada"] = []) /\
  (forall page_name rest,
      ["Ada Lovelace"; "Ada"] = page_name :: rest ->
      exists more,
        Tools.fetch_wikipedia_information small_web (JString "Ada")
        = match Tools.wikipedia_page small_web page_name with
          | Tools.Got page =>
              "Page 1 - Title: " +:+ Tools.title page +:+ Tools.nl
              +:+ "URL: " +:+ Tools.url page +:+ Tools.nl
              +:+ " - Summary: " +:+ Tools.summary page
              +:+ Tools.nl +:+ Tools.nl
          | Tools.Failed e =>
              "Error processing page " +:+ page_name +:+ ": " +:+ e
              +:+ Tools.nl +:+ Tools.nl
          end +:+ more).
Proof.
  apply (no_results_text_iff_no_pages small_web (JString "Ada")). reflexivity.
Defined.

(** With no page found the tool has its own text. *)
Example empty_web_wikipedia :
  Tools.fetch_wikipedia_information empty_web (JString "Ada")
  = "No Wikipedia results found.".
Proof. reflexivity. Qed.

(** One page loads and one does not: both leave their lines. *)
Example small_web_wikipedia :
  Tools.fetch_wikipedia_information small_web (JString "Ada")
  = "Page 1 - Title: Ada Lovelace" +:+ Tools.nl
    +:+ "URL: http://w/Ada" +:+ Tools.nl
    +:+ " - Summary: Mathematician." +:+ Tools.nl +:+ Tools.nl
    +:+ "Error processing page Ada: ambiguous" +:+ Tools.nl +:+ Tools.nl.
Proof. reflexivity. Qed.

Lemma results_loop_acc p results : forall acc,
  fold_left (fun summary result => summary +:+ Tools.result_block p result)
            results acc
  = acc +:+ fold_left (fun summary result => summary +:+ Tools.result_block p result)
              results "".
Proof.
  induction results as [|x r IH]; intros acc; simpl.
  - by rewrite append_empty_r.
  - rewrite (IH (acc +:+ _)), (IH ("" +:+ _)). by rewrite append_assoc.
Qed.

(** X15. When the web search answers, the tool returns the empty string
    exactly when the search found nothing: unlike the Wikipedia tool it has
    no text of its own for that case. *)
Theorem empty_text_iff_no_results p query results :
  Tools.ddgs_text p query = Tools.Got results ->
  Tools.fetch_internet_information p query = "" <-> results = [].
Proof.
  intros Hs. unfold Tools.fetch_internet_information. rewrite Hs.
  destruct results as [|x r]; [done|].
  simpl fold_left. rewrite results_loop_acc.
  split; [|done]. intros H. discriminate H.
Qed.

Lemma empty_text_iff_no_results_witness :
  Tools.fetch_internet_information empty_web (JString "Ada") = ""
  <-> @nil Tools.Result = [].
Proof.
  apply (empty_text_iff_no_results empty_web (JString "Ada")). reflexivity.
Defined.

(** * What stops a batch, and what a batch calls *)

Lemma call_result_returns env tool_call :
  (exists result, call_result env tool_call = Returned result)
  <-> has_argument env tool_call.
Proof.
  unfold call_result, result_text, has_argument, required_argument.
  destruct (String.eqb (fn_name (call_function tool_call))
              "fetch_wikipedia_information").
  { destruct (subscript _ _) as [a|e]; split; eauto.
    - by intros (result & H).
    - by intros (v & H). }
  destruct (String.eqb (fn_name (call_function tool_call))
              "fetch_internet_information").
  { destruct (subscript _ _) as [a|e]; split; eauto.
    - by intros (result & H).
    - by intros (v & H). }
  destruct (String.eqb (fn_name (call_function tool_call))
              "get_current_date_and_time"); split; eauto.
Qed.

Lemma batch_runs_iff env tool_calls :
  snd (batch env tool_calls) = None <-> Forall (has_argument env) tool_calls.
Proof.
  induction tool_calls as [|tc rest IH]; simpl.
  - split; [constructor|done].
  - destruct (call_result env tc) as [result|e] eqn:Hr.
    + destruct (batch env rest) as [ms oe]; simpl in *.
      rewrite IH. split.
      * intros H. constructor; [|done].
        apply call_result_returns. by exists result.
      * by inversion 1.
    + split; [done|]. inversion 1 as [|? ? Ha _]; subst.
      apply call_result_returns in Ha as (result & Ha). congruence.
Qed.

(** X16. A batch of tool calls runs to its end exactly when every call to
    one of the two search tools carries the argument that tool reads: a
    missing argument, or arguments that are no JSON object, are the only
    thing that stops a batch. Calls to the clock and calls with an unknown
    name never do, whatever their arguments. *)
Theorem batch_returns_iff_arguments_present env tool_calls w :
  fst (_process_tool_calls env tool_calls w) = Returned tt
  <-> Forall (has_argument env) tool_calls.
Proof.
  destruct (process_run env tool_calls w) as (w' & sent & -> & _).
  rewrite <- batch_runs_iff. cbn [fst].
  by destruct (snd (batch env tool_calls)).
Qed.

Lemma invoked_names_app a b :
  invoked_names (a ++ b) = invoked_names a ++ invoked_names b.
Proof.
  induction a as [|[r|name seen] a IH]; simpl; [done|done|by rewrite IH].
Qed.

Lemma subscript_then_invoke_names name (o : Outcome JSON) (f : JSON -> string) w :
  exists w' sent,
    (a <- lift o ;; invoke name (f a)) w
    = (match o with Returned a => Returned (f a) | Raised e => Raised e end, w') /\
    grows w w' [] sent /\
    invoked_names sent = match o with Returned _ => [name] | Raised _ => [] end.
Proof.
  unfold bind, lift. destruct o as [a|e].
  - destruct (invoke_run name (f a) w) as (w' & Hr & Hg).
    by exists w', [Invoked name (history_of w)].
  - exists w, []. split; [done|]. split; [apply grows_refl|done].
Qed.

Lemma execute_names env name args w :
  exists w' sent,
    execute env name args w = (result_text env name args, w') /\
    grows w w' [] sent /\
    invoked_names sent
    = match result_text env name args with
      | Returned _ => if known_tool name then [name] else []
      | Raised _ => []
      end.
Proof.
  unfold execute, result_text, known_tool.
  destruct (String.eqb name "fetch_wikipedia_information").
  { destruct (subscript_then_invoke_names name (subscript args "wikipedia_query")
                (fetch_wikipedia_information (tools env)) w)
      as (w' & sent & Hr & Hg & Hn).
    exists w', sent. split; [exact Hr|]. split; [exact Hg|].
    rewrite Hn. by destruct (subscript args "wikipedia_query"). }
  destruct (String.eqb name "fetch_internet_information").
  { destruct (subscript_then_invoke_names name (subscript args "query")
                (fetch_internet_information (tools env)) w)
      as (w' & sent & Hr & Hg & Hn).
    exists w', sent. split; [exact Hr|]. split; [exact Hg|].
    rewrite Hn. by destruct (subscript args "query"). }
  destruct (String.eqb name "get_current_date_and_time").
  { destruct (invoke_run name (get_current_date_and_time (tools env)) w)
      as (w' & Hr & Hg).
    by exists w', [Invoked name (history_of w)]. }
  exists w, []. split; [done|]. split; [apply grows_refl|done].
Qed.

(** X17. During a batch each tool method is called once for every served
    call that names it, in the order of the calls; a call with an unknown
    name, and the call that stops the batch, call nothing. *)
Theorem tools_called_once_per_served_call env tool_calls : forall w,
  exists sent,
    trace (after (_process_tool_calls env tool_calls) w) = trace w ++ sent /\
    invoked_names sent
    = List.filter known_tool
        (map (fun tool_call => fn_name (call_function tool_call))
             (served env tool_calls)).
Proof.
  unfold served, after.
  induction tool_calls as [|tc rest IH]; intros w.
  - exists []. split; [by rewrite app_nil_r|done].
  - cbn [_process_tool_calls batch]. unfold call_result.
    destruct (execute_names env (fn_name (call_function tc))
                (parse_arguments env tc) w) as (w1 & s1 & Hx & Hg1 & Hn1).
    destruct (result_text env (fn_name (call_function tc))
                (parse_arguments env tc)) as [result|e].
    + rewrite (bind_returned _ _ _ _ _ Hx).
      destruct (history_append_run (tool_message result tc) w1)
        as (w2 & Ha & Hg2).
      rewrite (bind_returned _ _ _ _ _ Ha).
      destruct (IH w2) as (s3 & Ht & Hn3).
      exists (s1 ++ s3). rewrite Ht.
      destruct Hg1 as (_ & _ & _ & H1), Hg2 as (_ & _ & _ & H2).
      rewrite H2, H1, app_nil_r, <- app_assoc. split; [done|].
      rewrite invoked_names_app, Hn1, Hn3.
      destruct (batch env rest) as [ms oe]. cbn [fst length take map List.filter].
      by destruct (known_tool (fn_name (call_function tc))).
    + rewrite (bind_raised _ _ _ _ _ Hx). cbn [snd fst length take map List.filter].
      exists s1. by destruct Hg1 as (_ & _ & _ & H1).
Qed.

(** The batch of [halfway_env]: the clock is called once, the lookup that
    lacks its query and the call after it call nothing. *)
Example halfway_names :
  invoked_names
    (trace (after (_process_tool_calls halfway_env halfway_calls)
              (start halfway_env)))
  = ["get_current_date_and_time"].
Proof. vm_compute. reflexivity. Qed.

(** ** A provider that fails, seen from the loop *)

(** X18. With the program's own tools, a web search that raises does not
    stop the batch: the call is answered by a tool message that carries the
    call's id and reads back as status [success] with the message
    [Search error: ] followed by the text of the exception. *)
Theorem failed_search_is_answered env p tool_call query text w :
  tools env = tools_of p ->
  fn_name (call_function tool_call) = "fetch_internet_information" ->
  subscript (parse_arguments env tool_call) "query" = Returned query ->
  Tools.ddgs_text p query = Tools.Failed text ->
  exists w' m,
    _process_tool_calls env [tool_call] w = (Returned tt, w') /\
    history_of w' = history_of w ++ [m] /\
    tool_call_id_of m = Some (call_id tool_call) /\
    member "status" m = Some (JString "success") /\
    member "message" m = Some (JString ("Search error: " +:+ text)).
Proof.
  intros Ht Hn Hq Hf.
  assert (Hr : call_result env tool_call = Returned ("Search error: " +:+ text)).
  { unfold call_result, result_text. rewrite Hn, Hq, Ht.
    cbn. unfold Tools.fetch_internet_information. by rewrite Hf. }
  destruct (process_run env [tool_call] w) as (w' & sent & Hp & Hg & _).
  cbn [batch] in Hp, Hg. rewrite Hr in Hp, Hg. cbn in Hp, Hg.
  destruct Hg as (_ & _ & Hh & _).
  exists w', (tool_message ("Search error: " +:+ text) tool_call).
  split; [exact Hp|]. split; [exact Hh|]. split; [done|].
  split; [apply member_status|apply member_message].
Qed.

Lemma failed_search_is_answered_witness :
  exists w' m,
    _process_tool_calls offline_env [search_call] (start offline_env)
    = (Returned tt, w') /\
    history_of w' = history_of (start offline_env) ++ [m] /\
    tool_call_id_of m = Some (call_id search_call) /\
    member "status" m = Some (JString "success") /\
    member "message" m = Some (JString ("Search error: " +:+ "offline")).
Proof.
  apply (failed_search_is_answered offline_env offline search_call
           (JString "Ada Lovelace") "offline");
    reflexivity.
Defined.

(** * Reset, the shared list, and turns with tool calls, as the program runs them *)

(** ** Reset *)



(** Over a whole session: whenever the button is pressed, whatever was
    sent before, the history is the system message alone afterwards. *)
Example reset_after_two_runs :
  history_of
    (after (GUI time_env presses_clear)
       (after (GUI time_env (says "And now?"))
          (after (GUI time_env (says "What time is it?")) blank)))
  = [System "You are a helpful assistant."].
Proof. vm_compute. reflexivity. Qed.

(** ** The list that both attributes name *)



















(** The store after one turn: one list, read through either attribute. *)
Example hello_store :
  let w' := after (generation_loop hello_env "Hello") (start hello_env) in
  heap w' !! system_prompt (ai_chat w')
  = Some [System "You are a helpful assistant."; User "Hello";
          Assistant (Some "Hi there!")] /\
  heap w' !! history (ai_chat w')
  = Some [System "You are a helpful assistant."; User "Hello";
          Assistant (Some "Hi there!")] /\
  size (heap w') = 1.
Proof. vm_compute. done. Qed.

(** ** The status of a tool result, in every history *)

Lemma batch_served env tool_calls :
  Forall2 (fun m tool_call =>
             exists result,
               call_result env tool_call = Returned result /\
               m = tool_message result tool_call)
          (fst (batch env tool_calls)) (served env tool_calls).
Proof.
  unfold served.
  induction tool_calls as [|tc rest IH]; simpl; [constructor|].
  destruct (call_result env tc) as [result|e] eqn:Hr; [|constructor].
  destruct (batch env rest) as [ms oe]; simpl in *.
  constructor; [by exists result|exact IH].
Qed.

Lemma batch_success env tool_calls :
  Forall (fun m => role m = tool ->
                   member "status" m = Some (JString "success"))
         (fst (batch env tool_calls)).
Proof.
  induction (batch_served env tool_calls) as [|m tc ms tcs (result & _ & ->) _ IH];
    constructor; [|exact IH].
  intros _. apply member_status.
Qed.

Lemma turn_success env message w :
  exists added,
    history_of (after (generation_loop env message) w) = history_of w ++ added /\
    Forall (fun m => role m = tool ->
                     member "status" m = Some (JString "success")) added.
Proof.
  destruct (turn_cases env message w)
    as (o & w' & added & sent & Hr & (_ & _ & Hh & _) & Hcases).
  unfold after. rewrite Hr. exists added. split; [exact Hh|].
  destruct Hcases as [(e & _ & _ & -> & _)
                     |[(response & _ & _ & _ & -> & _)
                      |(response & tcs & invoked & _ & _ & _ & _ &
                        [(e & _ & _ & -> & _)|(_ & _ & -> & _)])]].
  - by repeat constructor.
  - by repeat constructor.
  - apply Forall_app. split; [by repeat constructor|apply batch_success].
  - apply Forall_app. split; [by repeat constructor|].
    apply Forall_app. split; [apply batch_success|].
    destruct (stream_outcome _ _); by repeat constructor.
Qed.

(** C3, amended. Every tool message in a history serializes a result whose
    status is "success". A batch, whether it runs to its end or is stopped
    by a call that raises, appends one tool message for each call it
    served, in order, with the call's id, the status "success" and as
    message the text the call ended with; for a tool the program does not
    have that text is the error text, and the status is "success" all the
    same. A batch that returns served all its calls; a call that raises gets
    no tool message. No other status is written in any world the object
    goes through. *)
Theorem tool_status_is_success env :
  (forall tool_calls w,
      exists answers,
        history_of (after (_process_tool_calls env tool_calls) w)
        = history_of w ++ answers /\
        Forall2 (fun m tool_call =>
                   exists result,
                     call_result env tool_call = Returned result /\
                     m = Tool (json_dumps [("status", "success");
                                           ("message", result)])
                              (call_id tool_call) /\
                     member "status" m = Some (JString "success") /\
                     member "message" m = Some (JString result) /\
                     (known_tool (fn_name (call_function tool_call)) = false ->
                      result = "Error: not all variables have been provided."))
                answers (served env tool_calls) /\
        match fst (_process_tool_calls env tool_calls w) with
        | Returned _ => served env tool_calls = tool_calls
        | Raised _ => length (served env tool_calls) < length tool_calls
        end) /\
  (forall w,
      reachable env w ->
      Forall (fun m => role m = tool ->
                       member "status" m = Some (JString "success"))
             (history_of w)).
Proof.
  split.
  - intros tool_calls w.
    destruct (process_run env tool_calls w) as (w' & sent & Hp & Hg & _).
    unfold after. rewrite Hp. destruct Hg as (_ & _ & Hh & _).
    exists (fst (batch env tool_calls)). split; [exact Hh|]. split.
    + eapply Forall2_impl; [apply batch_served|].
      intros m tc (result & Hc & ->). exists result.
      split; [done|]. split; [done|].
      unfold tool_message. rewrite member_status, member_message.
      split; [done|]. split; [done|].
      intros Hk. rewrite (unknown_call_result env tc Hk) in Hc.
      by injection Hc as <-.
    + cbn [fst]. unfold served.
      destruct (snd (batch env tool_calls)) as [e|] eqn:Hb; cbn [finish].
      * destruct (batch_stopped env e tool_calls Hb) as (Hl & _).
        rewrite length_take. lia.
      * apply batch_ids in Hb. apply (f_equal length) in Hb.
        rewrite !length_map in Hb. rewrite Hb. apply firstn_all.
  - induction 1 as [|w message Hr IH|w Hr IH|w t Hr IH].
    + rewrite history_at_start. by repeat constructor.
    + destruct (turn_success env message w) as (added & -> & Ha).
      by apply Forall_app.
    + by destruct (clear_keeps_history env w Hr) as (-> & _).
    + exact IH.
Qed.

Lemma tool_status_is_success_witness :
  let w' := after (generation_loop halfway_env "What time is it?")
              (start halfway_env) in
  fst (generation_loop halfway_env "What time is it?" (start halfway_env))
  = Raised (KeyError "wikipedia_query") /\
  map role (history_of w') = [system; user; assistant; tool] /\
  Forall (fun m => role m = tool ->
                   member "status" m = Some (JString "success"))
         (history_of w').
Proof.
  intros w'. split; [vm_compute; reflexivity|].
  split; [vm_compute; reflexivity|].
  apply (proj2 (tool_status_is_success halfway_env)).
  apply reach_turn, reach_init.
Defined.

(** ** A turn with tool calls, however it ends *)







(** ** The second request *)




